(** * USB webcam coordinator: negotiation and frame life cycle

    A shallow embedding of [main/usb_webcam_main.c] and
    [main/uvc_frame_config.h]: the stream-start callback
    [camera_start_cb], the sensor life-cycle function [camera_init] and
    the two frame-exchange callbacks [camera_fb_get_cb] and
    [camera_fb_return_cb], together with the capability table
    [UVC_FRAMES_INFO].

    The C code keeps its state in file-level and function-level statics
    and talks to the sensor driver through calls whose answers the
    program cannot predict.  Both are made explicit here: the statics are
    the fields of [world], every call into the driver is appended to the
    log [calls], and what the driver answers during one callback is read
    from a [sensor_lib] record.  A callback is a function from [world] to
    an [outcome], which is either normal completion or a trap (integer
    division by zero, failed [assert]). *)

From Stdlib Require Import ZArith List Bool Lia.
Import ListNotations.
Local Open Scope Z_scope.

(** ** Types of the driver and transport headers

    The enumerations below are declared in headers that are not part of
    the program (esp_err.h, sensor.h, esp_camera.h, usb_device_uvc.h).
    The program only ever compares their values for equality, so each is
    an inductive type: the enumerators the program names, and one
    constructor that stands for every other value of the type. *)

Inductive esp_err_t : Type :=
| ESP_OK
| ESP_ERR_NOT_SUPPORTED
| ESP_ERR_code (code : Z).

Inductive uvc_format_t : Type :=
| UVC_FORMAT_MJPEG
| UVC_FORMAT_enum (v : Z).

Inductive pixformat_t : Type :=
| PIXFORMAT_JPEG
| PIXFORMAT_enum (v : Z).

Inductive framesize_t : Type :=
| FRAMESIZE_QVGA
| FRAMESIZE_HVGA
| FRAMESIZE_VGA
| FRAMESIZE_SVGA
| FRAMESIZE_HD
| FRAMESIZE_FHD
| FRAMESIZE_enum (v : Z).

Inductive camera_pid_t : Type :=
| OV3660_PID
| OV2640_PID
| GC0308_PID
| GC032A_PID
| PID_enum (v : Z).

Definition esp_err_eq_dec (a b : esp_err_t) : {a = b} + {a <> b}.
Proof. decide equality; apply Z.eq_dec. Defined.

Definition uvc_format_eq_dec (a b : uvc_format_t) : {a = b} + {a <> b}.
Proof. decide equality; apply Z.eq_dec. Defined.

Definition pixformat_eq_dec (a b : pixformat_t) : {a = b} + {a <> b}.
Proof. decide equality; apply Z.eq_dec. Defined.

Definition framesize_eq_dec (a b : framesize_t) : {a = b} + {a <> b}.
Proof. decide equality; apply Z.eq_dec. Defined.

Definition camera_pid_eq_dec (a b : camera_pid_t) : {a = b} + {a <> b}.
Proof. decide equality; apply Z.eq_dec. Defined.

(** The C operator [==] on each of these types. *)
Definition esp_err_eqb (a b : esp_err_t) : bool :=
  if esp_err_eq_dec a b then true else false.

Definition uvc_format_eqb (a b : uvc_format_t) : bool :=
  if uvc_format_eq_dec a b then true else false.

Definition pixformat_eqb (a b : pixformat_t) : bool :=
  if pixformat_eq_dec a b then true else false.

Definition framesize_eqb (a b : framesize_t) : bool :=
  if framesize_eq_dec a b then true else false.

Definition camera_pid_eqb (a b : camera_pid_t) : bool :=
  if camera_pid_eq_dec a b then true else false.

(** [struct timeval] of a captured frame. *)
Record timeval : Type := mk_timeval { tv_sec : Z; tv_usec : Z }.

(** [camera_fb_t]: a frame buffer owned by the sensor driver.  [fb_buf]
    is the address of the pixel data, [fb_len] its length in bytes
    ([size_t]). *)
Record camera_fb_t : Type := mk_camera_fb {
  fb_buf : Z;
  fb_len : Z;
  fb_width : Z;
  fb_height : Z;
  fb_format : pixformat_t;
  fb_timestamp : timeval
}.

(** [uvc_fb_t]: the descriptor handed to the transport.  Its [format]
    field receives the integer value of the sensor's [pixformat_t]
    unchanged, so it is kept at that type. *)
Record uvc_fb_t : Type := mk_uvc_fb {
  uvc_buf : Z;
  uvc_len : Z;
  uvc_width : Z;
  uvc_height : Z;
  uvc_format : pixformat_t;
  uvc_timestamp : timeval
}.

(** A value of type [uvc_fb_t *].  The program owns exactly one object
    of that type, [s_fb.uvc_fb]. *)
Inductive uvc_fb_ptr : Type :=
| NULL
| addr_s_fb_uvc_fb
| addr_other (a : Z).

Definition uvc_fb_ptr_eq_dec (a b : uvc_fb_ptr) : {a = b} + {a <> b}.
Proof. decide equality; apply Z.eq_dec. Defined.

(** The fields of [camera_config_t] that [camera_init] takes from its
    arguments; the pins, the LEDC timer and channel, the grab mode and
    the buffer location are compile-time constants of the board. *)
Record camera_config_t : Type := mk_camera_config {
  xclk_freq_hz : Z;
  pixel_format : pixformat_t;
  frame_size : framesize_t;
  jpeg_quality : Z;
  fb_count : Z
}.

(** ** uvc_frame_config.h *)

Record uvc_frame_info_t : Type := mk_uvc_frame_info {
  width : Z;
  height : Z;
  rate : Z;
  interval : Z
}.

Definition UVC_FRAMES_INFO : list (list uvc_frame_info_t) :=
  [ [ mk_uvc_frame_info 640 480 30 333333;
      mk_uvc_frame_info 320 240 30 333333;
      mk_uvc_frame_info 480 320 30 333333;
      mk_uvc_frame_info 1280 720 15 666666 ] ].

Definition UVC_CONFIG_FORMAT_MJPEG_INDEX : nat := 0.

(** The rows advertised for the MJPEG format. *)
Definition mjpeg_frames : list uvc_frame_info_t :=
  nth UVC_CONFIG_FORMAT_MJPEG_INDEX UVC_FRAMES_INFO [].

(** ** Program state *)

(** [s_fb]: the sensor buffer currently checked out ([None] is the null
    pointer) and the descriptor that aliases it. *)
Record fb_t : Type := mk_fb {
  cam_fb_p : option camera_fb_t;
  uvc_fb : uvc_fb_t
}.

(** [s_uvc_params]. *)
Record uvc_params_t : Type := mk_uvc_params {
  p_format : uvc_format_t;
  p_width : Z;
  p_height : Z;
  p_frame_rate : Z;
  p_frame_interval : Z
}.

(** The function-level statics of [camera_init]. *)
Record camera_statics : Type := mk_camera_statics {
  inited : bool;
  cur_xclk_freq_hz : Z;
  cur_pixel_format : pixformat_t;
  cur_frame_size : framesize_t;
  cur_jpeg_quality : Z;
  cur_fb_count : Z
}.

(** Calls into the sensor driver, with their arguments. *)
Inductive hw_call : Type :=
| esp_camera_init (config : camera_config_t)
| esp_camera_deinit
| esp_camera_return_all
| esp_camera_sensor_get
| set_vflip (enable : Z)
| set_hmirror (enable : Z)
| set_brightness (level : Z)
| set_saturation (level : Z)
| esp_camera_sensor_get_info
| esp_camera_fb_get
| esp_camera_fb_return (fb : option camera_fb_t).

Record world : Type := mk_world {
  s_fb : fb_t;
  s_uvc_params : uvc_params_t;
  camera : camera_statics;
  calls : list hw_call
}.

(** What the sensor driver answers during one callback.  Each callback
    asks each question at most once. *)
Record sensor_lib : Type := mk_sensor_lib {
  init_status : esp_err_t;
  sensor_PID : camera_pid_t;
  support_jpeg : bool;
  next_frame : option camera_fb_t
}.

(** ** Outcomes and sequencing *)

Inductive trap : Type :=
| DivideByZero
| AssertFailed.

Inductive outcome (A : Type) : Type :=
| Done (a : A) (w : world)
| Trapped (t : trap) (w : world).

Arguments Done {A} a w.
Arguments Trapped {A} t w.

Definition M (A : Type) : Type := world -> outcome A.

Definition ret {A : Type} (a : A) : M A := fun w => Done a w.

Definition bind {A B : Type} (m : M A) (k : A -> M B) : M B :=
  fun w => match m w with
           | Done a w' => k a w'
           | Trapped t w' => Trapped t w'
           end.

Definition raise {A : Type} (t : trap) : M A := fun w => Trapped t w.

Declare Scope cb_scope.
Delimit Scope cb_scope with cb.
Notation "x <- m ;; k" := (bind m (fun x => k))
  (at level 61, m at next level, right associativity) : cb_scope.
Notation "m ;; k" := (bind m (fun _ => k))
  (at level 61, right associativity) : cb_scope.
Local Open Scope cb_scope.

(** Updates of one component of the state. *)
Definition log_calls (l : list hw_call) (w : world) : world :=
  mk_world (s_fb w) (s_uvc_params w) (camera w) (calls w ++ l).

Definition with_camera (c : camera_statics) (w : world) : world :=
  mk_world (s_fb w) (s_uvc_params w) c (calls w).

Definition with_uvc_params (p : uvc_params_t) (w : world) : world :=
  mk_world (s_fb w) p (camera w) (calls w).

Definition with_s_fb (f : fb_t) (w : world) : world :=
  mk_world f (s_uvc_params w) (camera w) (calls w).

Definition call (c : hw_call) : M unit := fun w => Done tt (log_calls [c] w).

Definition get_camera : M camera_statics := fun w => Done (camera w) w.

Definition set_camera (c : camera_statics) : M unit :=
  fun w => Done tt (with_camera c w).

Definition set_uvc_params (p : uvc_params_t) : M unit :=
  fun w => Done tt (with_uvc_params p w).

Definition get_s_fb : M fb_t := fun w => Done (s_fb w) w.

Definition set_s_fb (f : fb_t) : M unit := fun w => Done tt (with_s_fb f w).

(** [assert(b)] with assertions enabled. *)
Definition c_assert (b : bool) : M unit :=
  if b then ret tt else raise AssertFailed.

(** [a / b] on [int]: truncation toward zero, a trap when [b] is zero. *)
Definition int_div (a b : Z) : M Z :=
  if b =? 0 then raise DivideByZero else ret (Z.quot a b).

(** Conversion to [uint32_t]. *)
Definition to_uint32 (z : Z) : Z := z mod 2 ^ 32.

(** ** usb_webcam_main.c *)

Section Firmware.

(** Build configuration (sdkconfig): the sensor clock and the target
    chip. *)
Variable CONFIG_CAMERA_XCLK_FREQ : Z.
Variable CONFIG_IDF_TARGET_ESP32S3 : bool.

Definition CAMERA_XCLK_FREQ : Z := CONFIG_CAMERA_XCLK_FREQ.
Definition CAMERA_FB_COUNT : Z := 2.

Definition UVC_MAX_FRAMESIZE_SIZE : Z :=
  if CONFIG_IDF_TARGET_ESP32S3 then 75 * 1024 else 60 * 1024.

(** The driver calls whose answer the program uses: each is logged and
    answers from [hw]. *)
Definition do_esp_camera_init (hw : sensor_lib) (config : camera_config_t)
  : M esp_err_t :=
  call (esp_camera_init config) ;; ret (init_status hw).

Definition do_esp_camera_sensor_get (hw : sensor_lib) : M camera_pid_t :=
  call esp_camera_sensor_get ;; ret (sensor_PID hw).

Definition do_esp_camera_sensor_get_info (hw : sensor_lib) : M bool :=
  call esp_camera_sensor_get_info ;; ret (support_jpeg hw).

Definition do_esp_camera_fb_get (hw : sensor_lib) : M (option camera_fb_t) :=
  call esp_camera_fb_get ;; ret (next_frame hw).

(** Lines 70-71 of [camera_init]: is the sensor already running with
    exactly these settings? *)
Definition already_inited (c : camera_statics) (xclk : Z)
  (pf : pixformat_t) (fs : framesize_t) (quality : Z) (count : Z) : bool :=
  inited c && (cur_xclk_freq_hz c =? xclk) && pixformat_eqb (cur_pixel_format c) pf
  && framesize_eqb (cur_frame_size c) fs && (cur_fb_count c =? count)
  && (cur_jpeg_quality c =? quality).

(** Lines 74-79: tear the running sensor down. *)
Definition teardown_if_inited (c : camera_statics) : M unit :=
  if inited c then
    call esp_camera_return_all ;;
    call esp_camera_deinit ;;
    set_camera (mk_camera_statics false (cur_xclk_freq_hz c) (cur_pixel_format c)
                  (cur_frame_size c) (cur_jpeg_quality c) (cur_fb_count c))
  else ret tt.

(** Lines 122-137: adjustments made on the sensor object [s] once the
    driver is up. *)
Definition sensor_adjustments (PID : camera_pid_t) : M unit :=
  call (set_vflip 1) ;;
  (if camera_pid_eqb PID OV3660_PID then
     call (set_brightness 1) ;;
     call (set_saturation (-2))
   else ret tt) ;;
  (if camera_pid_eqb PID OV3660_PID || camera_pid_eqb PID OV2640_PID then
     call (set_vflip 1)
   else if camera_pid_eqb PID GC0308_PID then
     call (set_hmirror 0)
   else if camera_pid_eqb PID GC032A_PID then
     call (set_vflip 1)
   else ret tt).

(** Lines 81-155: bring the sensor up with the given settings. *)
Definition camera_bring_up (hw : sensor_lib) (xclk : Z) (pf : pixformat_t)
  (fs : framesize_t) (quality : Z) (count : Z) : M esp_err_t :=
  let camera_config := mk_camera_config xclk pf fs quality count in
  r <- do_esp_camera_init hw camera_config ;;
  if negb (esp_err_eqb r ESP_OK) then ret r
  else
    PID <- do_esp_camera_sensor_get hw ;;
    sensor_adjustments PID ;;
    s_info_support_jpeg <- do_esp_camera_sensor_get_info hw ;;
    if esp_err_eqb ESP_OK r && pixformat_eqb PIXFORMAT_JPEG pf
       && Bool.eqb s_info_support_jpeg true
    then
      set_camera (mk_camera_statics true xclk pf fs quality count) ;;
      ret r
    else ret ESP_ERR_NOT_SUPPORTED.

Definition camera_init (hw : sensor_lib) (xclk_freq_hz : Z)
  (pixel_format : pixformat_t) (frame_size : framesize_t) (jpeg_quality : Z)
  (fb_count : Z) : M esp_err_t :=
  c <- get_camera ;;
  if already_inited c xclk_freq_hz pixel_format frame_size jpeg_quality fb_count
  then ret ESP_OK
  else
    teardown_if_inited c ;;
    camera_bring_up hw xclk_freq_hz pixel_format frame_size jpeg_quality fb_count.

Definition camera_stop_cb : M unit := ret tt.

(** Lines 191-212 of [camera_start_cb]: the frame size and JPEG quality
    chosen for a resolution; [None] is the final [else]. *)
Definition map_resolution (width height : Z) : option (framesize_t * Z) :=
  if (width =? 320) && (height =? 240) then Some (FRAMESIZE_QVGA, 10)
  else if (width =? 480) && (height =? 320) then Some (FRAMESIZE_HVGA, 10)
  else if (width =? 640) && (height =? 480) then Some (FRAMESIZE_VGA, 12)
  else if (width =? 800) && (height =? 600) then Some (FRAMESIZE_SVGA, 14)
  else if (width =? 1280) && (height =? 720) then Some (FRAMESIZE_HD, 16)
  else if (width =? 1920) && (height =? 1080) then Some (FRAMESIZE_FHD, 16)
  else None.

Definition camera_start_cb (hw : sensor_lib) (format : uvc_format_t)
  (width height rate : Z) : M esp_err_t :=
  (* line 172: the interval is first computed for the log *)
  _ <- int_div 10000000 rate ;;
  frame_interval <- int_div 10000000 rate ;;
  set_uvc_params (mk_uvc_params format width height rate (to_uint32 frame_interval)) ;;
  if negb (uvc_format_eqb format UVC_FORMAT_MJPEG) then ret ESP_ERR_NOT_SUPPORTED
  else
    match map_resolution width height with
    | None => ret ESP_ERR_NOT_SUPPORTED
    | Some (frame_size, jpeg_quality) =>
        r <- camera_init hw (to_uint32 CAMERA_XCLK_FREQ) PIXFORMAT_JPEG frame_size
               jpeg_quality CAMERA_FB_COUNT ;;
        if negb (esp_err_eqb r ESP_OK) then ret r else ret ESP_OK
    end.

Definition camera_fb_get_cb (hw : sensor_lib) : M uvc_fb_ptr :=
  p <- do_esp_camera_fb_get hw ;;
  f <- get_s_fb ;;
  set_s_fb (mk_fb p (uvc_fb f)) ;;
  match p with
  | None => ret NULL
  | Some fb =>
      set_s_fb (mk_fb p (mk_uvc_fb (fb_buf fb) (fb_len fb) (fb_width fb)
                           (fb_height fb) (fb_format fb) (fb_timestamp fb))) ;;
      if fb_len fb >? UVC_MAX_FRAMESIZE_SIZE then
        call (esp_camera_fb_return p) ;;
        ret NULL
      else ret addr_s_fb_uvc_fb
  end.

Definition camera_fb_return_cb (fb : uvc_fb_ptr) : M unit :=
  c_assert (if uvc_fb_ptr_eq_dec fb addr_s_fb_uvc_fb then true else false) ;;
  f <- get_s_fb ;;
  call (esp_camera_fb_return (cam_fb_p f)).

End Firmware.

(** ** Vocabulary of the properties *)

(** The configuration held in the statics of [camera_init]. *)
Definition cached_config (c : camera_statics) : camera_config_t :=
  mk_camera_config (cur_xclk_freq_hz c) (cur_pixel_format c) (cur_frame_size c)
    (cur_jpeg_quality c) (cur_fb_count c).

(** The statics with the flag cleared, as line 77 leaves them. *)
Definition mark_uninited (c : camera_statics) : camera_statics :=
  mk_camera_statics false (cur_xclk_freq_hz c) (cur_pixel_format c)
    (cur_frame_size c) (cur_jpeg_quality c) (cur_fb_count c).

(** The state in which [camera_init] leaves the teardown branch. *)
Definition torn_down (w : world) : world :=
  with_camera (mark_uninited (camera w))
    (log_calls [esp_camera_return_all; esp_camera_deinit] w).

(** The parameters stored by lines 176-180. *)
Definition requested_params (format : uvc_format_t) (width height rate : Z)
  : uvc_params_t :=
  mk_uvc_params format width height rate (to_uint32 (Z.quot 10000000 rate)).

(** Driver calls that start or stop the sensor. *)
Definition is_lifecycle_call (c : hw_call) : bool :=
  match c with
  | esp_camera_init _ | esp_camera_deinit | esp_camera_return_all => true
  | _ => false
  end.

(** Driver calls that adjust the picture. *)
Definition is_adjustment_call (c : hw_call) : bool :=
  match c with
  | set_vflip _ | set_hmirror _ | set_brightness _ | set_saturation _ => true
  | _ => false
  end.

(** Driver calls that give a frame buffer back. *)
Definition is_fb_return (c : hw_call) : bool :=
  match c with
  | esp_camera_fb_return _ => true
  | _ => false
  end.

(** The calls [sensor_adjustments] makes, by product ID. *)
Definition adjustment_calls (PID : camera_pid_t) : list hw_call :=
  set_vflip 1 ::
  match PID with
  | OV3660_PID => [set_brightness 1; set_saturation (-2); set_vflip 1]
  | OV2640_PID => [set_vflip 1]
  | GC0308_PID => [set_hmirror 0]
  | GC032A_PID => [set_vflip 1]
  | PID_enum _ => []
  end.

(** The resolutions that [camera_start_cb] maps to a frame size. *)
Definition mapped_resolutions : list (Z * Z) :=
  [(320, 240); (480, 320); (640, 480); (800, 600); (1280, 720); (1920, 1080)].

(** The state at program start: the initialisers of the statics (zero
    where none is written; the enumerator of value zero is none of those
    the program names), and no driver call made yet. *)
Definition boot_world : world :=
  mk_world
    (mk_fb None (mk_uvc_fb 0 0 0 0 (PIXFORMAT_enum 0) (mk_timeval 0 0)))
    (mk_uvc_params UVC_FORMAT_MJPEG 640 480 30 333333)
    (mk_camera_statics false 0 (PIXFORMAT_enum 0) (FRAMESIZE_enum 0) 0 0)
    [].

(** A driver that starts a JPEG-capable OV2640 and has no frame ready. *)
Definition ov2640_ok : sensor_lib :=
  mk_sensor_lib ESP_OK OV2640_PID true None.

(** A driver whose sensor cannot produce JPEG. *)
Definition no_jpeg_sensor : sensor_lib :=
  mk_sensor_lib ESP_OK OV2640_PID false None.

(** A driver that starts a sensor of a product ID the program does not
    name (0x5640, the OV5640). *)
Definition ov5640_ok : sensor_lib :=
  mk_sensor_lib ESP_OK (PID_enum 0x5640) true None.

(** The sensor running at VGA, quality 12, on a 20 MHz clock. *)
Definition vga_world : world :=
  with_camera (mk_camera_statics true 20000000 PIXFORMAT_JPEG FRAMESIZE_VGA 12 2)
    boot_world.

(** Two frames as the sensor may deliver them: one of 1000 bytes, one of
    80000 bytes, which exceeds both values of [UVC_MAX_FRAMESIZE_SIZE]. *)
Definition small_frame : camera_fb_t :=
  mk_camera_fb 1073741824 1000 640 480 PIXFORMAT_JPEG (mk_timeval 1 500).

Definition large_frame : camera_fb_t :=
  mk_camera_fb 1073741824 80000 1280 720 PIXFORMAT_JPEG (mk_timeval 2 0).

Definition delivers (fb : camera_fb_t) : sensor_lib :=
  mk_sensor_lib ESP_OK OV2640_PID true (Some fb).

(** One exchange cycle as the transport drives the two frame callbacks:
    a frame request, followed by the release of the descriptor when one
    was handed out. *)
Definition exchange_cycle (target : bool) (hw : sensor_lib) : M unit :=
  h <- camera_fb_get_cb target hw ;;
  match h with
  | NULL => ret tt
  | _ => camera_fb_return_cb h
  end.

(** Consecutive exchange cycles, one per answer of the driver. *)
Fixpoint exchange_cycles (target : bool) (hws : list sensor_lib) : M unit :=
  match hws with
  | [] => ret tt
  | hw :: rest => exchange_cycle target hw ;; exchange_cycles target rest
  end.

(** The frames the driver delivers over these cycles, oldest first. *)
Fixpoint delivered (hws : list sensor_lib) : list (option camera_fb_t) :=
  match hws with
  | [] => []
  | hw :: rest =>
      match next_frame hw with
      | Some fb => Some fb :: delivered rest
      | None => delivered rest
      end
  end.

(** What the cache of [camera_init] can hold once [camera_start_cb] is
    its only caller: the configured clock, JPEG, two frame buffers, and
    a frame size with the quality [map_resolution] pairs it with. *)
Definition cache_from_start_cb (xclk : Z) (c : camera_statics) : Prop :=
  inited c = true ->
  cur_xclk_freq_hz c = to_uint32 xclk
  /\ cur_pixel_format c = PIXFORMAT_JPEG
  /\ cur_fb_count c = CAMERA_FB_COUNT
  /\ exists width height,
       map_resolution width height = Some (cur_frame_size c, cur_jpeg_quality c).

(** ** Basic facts *)

Lemma esp_err_eqb_eq (a b : esp_err_t) : esp_err_eqb a b = true <-> a = b.
Proof.
  unfold esp_err_eqb. destruct (esp_err_eq_dec a b); split; congruence.
Qed.

Lemma pixformat_eqb_eq (a b : pixformat_t) : pixformat_eqb a b = true <-> a = b.
Proof.
  unfold pixformat_eqb. destruct (pixformat_eq_dec a b); split; congruence.
Qed.

Lemma framesize_eqb_eq (a b : framesize_t) : framesize_eqb a b = true <-> a = b.
Proof.
  unfold framesize_eqb. destruct (framesize_eq_dec a b); split; congruence.
Qed.

Lemma uvc_format_eqb_eq (a b : uvc_format_t) : uvc_format_eqb a b = true <-> a = b.
Proof.
  unfold uvc_format_eqb. destruct (uvc_format_eq_dec a b); split; congruence.
Qed.

Lemma already_inited_iff (c : camera_statics) xclk pf fs quality count :
  already_inited c xclk pf fs quality count = true <->
  inited c = true /\ cached_config c = mk_camera_config xclk pf fs quality count.
Proof.
  unfold already_inited, cached_config.
  rewrite !andb_true_iff, !Z.eqb_eq, pixformat_eqb_eq, framesize_eqb_eq.
  split.
  - intros [[[[[Hi Hx] Hp] Hf] Hn] Hq]. split; [assumption | congruence].
  - intros [Hi Hc]. injection Hc as Hx Hp Hf Hq Hn. tauto.
Qed.

Lemma already_inited_false (c : camera_statics) xclk pf fs quality count :
  inited c = false \/ cached_config c <> mk_camera_config xclk pf fs quality count ->
  already_inited c xclk pf fs quality count = false.
Proof.
  intros H. apply not_true_is_false. rewrite already_inited_iff.
  intros [Hi Hc]. destruct H; congruence.
Qed.

Lemma log_calls_app (l1 l2 : list hw_call) (w : world) :
  log_calls l2 (log_calls l1 w) = log_calls (l1 ++ l2) w.
Proof. unfold log_calls. simpl. now rewrite app_assoc. Qed.

Lemma sensor_adjustments_calls (PID : camera_pid_t) (w : world) :
  sensor_adjustments PID w = Done tt (log_calls (adjustment_calls PID) w).
Proof.
  destruct PID; unfold sensor_adjustments, bind, call, ret; cbn;
    rewrite ?log_calls_app; reflexivity.
Qed.

Arguments sensor_adjustments PID w : simpl never.

(** The three ways [camera_bring_up] can end. *)
Lemma camera_bring_up_failed hw xclk pf fs quality count w :
  init_status hw <> ESP_OK ->
  camera_bring_up hw xclk pf fs quality count w =
  Done (init_status hw)
       (log_calls [esp_camera_init (mk_camera_config xclk pf fs quality count)] w).
Proof.
  intros H. unfold camera_bring_up, do_esp_camera_init, bind, call, ret.
  destruct (esp_err_eqb (init_status hw) ESP_OK) eqn:E; [|reflexivity].
  apply esp_err_eqb_eq in E. contradiction.
Qed.

Lemma camera_bring_up_unsupported hw xclk pf fs quality count w :
  init_status hw = ESP_OK ->
  pf <> PIXFORMAT_JPEG \/ support_jpeg hw = false ->
  camera_bring_up hw xclk pf fs quality count w =
  Done ESP_ERR_NOT_SUPPORTED
       (log_calls ([esp_camera_init (mk_camera_config xclk pf fs quality count);
                    esp_camera_sensor_get]
                   ++ adjustment_calls (sensor_PID hw)
                   ++ [esp_camera_sensor_get_info]) w).
Proof.
  intros Hok H.
  unfold camera_bring_up, do_esp_camera_init, do_esp_camera_sensor_get,
    do_esp_camera_sensor_get_info, bind, call, ret.
  rewrite Hok. cbn. rewrite sensor_adjustments_calls.
  assert (E : pixformat_eqb PIXFORMAT_JPEG pf && Bool.eqb (support_jpeg hw) true = false).
  { apply andb_false_iff. destruct H as [H|H].
    - left. apply not_true_is_false. rewrite pixformat_eqb_eq. congruence.
    - right. now rewrite H. }
  rewrite E. rewrite !log_calls_app. reflexivity.
Qed.

Lemma camera_bring_up_ok hw xclk fs quality count w :
  init_status hw = ESP_OK ->
  support_jpeg hw = true ->
  camera_bring_up hw xclk PIXFORMAT_JPEG fs quality count w =
  Done ESP_OK
       (with_camera (mk_camera_statics true xclk PIXFORMAT_JPEG fs quality count)
          (log_calls ([esp_camera_init
                         (mk_camera_config xclk PIXFORMAT_JPEG fs quality count);
                       esp_camera_sensor_get]
                      ++ adjustment_calls (sensor_PID hw)
                      ++ [esp_camera_sensor_get_info]) w)).
Proof.
  intros Hok Hj.
  unfold camera_bring_up, do_esp_camera_init, do_esp_camera_sensor_get,
    do_esp_camera_sensor_get_info, bind, call, ret, set_camera.
  rewrite Hok, Hj. cbn. rewrite sensor_adjustments_calls.
  rewrite !log_calls_app. reflexivity.
Qed.

(** [camera_bring_up] always returns; it calls [esp_camera_init] first
    and exactly once, never tears down, touches only the statics of
    [camera_init], and writes them only when it returns [ESP_OK]. *)
Lemma camera_bring_up_spec hw xclk pf fs quality count w :
  exists r w' rest,
    camera_bring_up hw xclk pf fs quality count w = Done r w'
    /\ calls w' =
       calls w ++ esp_camera_init (mk_camera_config xclk pf fs quality count) :: rest
    /\ filter is_lifecycle_call rest = []
    /\ s_fb w' = s_fb w
    /\ s_uvc_params w' = s_uvc_params w
    /\ (r = ESP_OK ->
        inited (camera w') = true
        /\ cached_config (camera w') = mk_camera_config xclk pf fs quality count)
    /\ (r <> ESP_OK -> camera w' = camera w).
Proof.
  pose (rest := esp_camera_sensor_get
                :: adjustment_calls (sensor_PID hw) ++ [esp_camera_sensor_get_info]).
  assert (Hrest : filter is_lifecycle_call rest = [])
    by (unfold rest; destruct (sensor_PID hw); reflexivity).
  destruct (esp_err_eq_dec (init_status hw) ESP_OK) as [Hok|Hko].
  - destruct (pixformat_eq_dec pf PIXFORMAT_JPEG) as [Hpf|Hpf];
      [destruct (support_jpeg hw) eqn:Hj|].
    + subst pf. rewrite camera_bring_up_ok by assumption.
      exists ESP_OK. eexists. exists rest. split; [reflexivity|].
      repeat split; try reflexivity; try assumption. congruence.
    + rewrite camera_bring_up_unsupported by auto.
      exists ESP_ERR_NOT_SUPPORTED. eexists. exists rest. split; [reflexivity|].
      repeat split; try reflexivity; try assumption; discriminate.
    + rewrite camera_bring_up_unsupported by auto.
      exists ESP_ERR_NOT_SUPPORTED. eexists. exists rest. split; [reflexivity|].
      repeat split; try reflexivity; try assumption; discriminate.
  - rewrite camera_bring_up_failed by assumption.
    exists (init_status hw). eexists. exists []. split; [reflexivity|].
    repeat split; try reflexivity; congruence.
Qed.

Lemma camera_init_cases hw xclk pf fs quality count w :
  camera_init hw xclk pf fs quality count w =
  if already_inited (camera w) xclk pf fs quality count then Done ESP_OK w
  else if inited (camera w)
       then camera_bring_up hw xclk pf fs quality count (torn_down w)
       else camera_bring_up hw xclk pf fs quality count w.
Proof.
  unfold camera_init, bind, get_camera, ret.
  destruct (already_inited (camera w) xclk pf fs quality count); [reflexivity|].
  unfold teardown_if_inited.
  destruct (inited (camera w)); [|reflexivity].
  unfold bind, call, set_camera. rewrite log_calls_app. reflexivity.
Qed.

(** [camera_init] always returns and touches neither [s_fb] nor
    [s_uvc_params]. *)
Lemma camera_init_total hw xclk pf fs quality count w :
  exists r w',
    camera_init hw xclk pf fs quality count w = Done r w'
    /\ s_fb w' = s_fb w
    /\ s_uvc_params w' = s_uvc_params w.
Proof.
  rewrite camera_init_cases.
  destruct (already_inited (camera w) xclk pf fs quality count).
  - now exists ESP_OK, w.
  - destruct (inited (camera w)).
    + destruct (camera_bring_up_spec hw xclk pf fs quality count (torn_down w))
        as (r & w' & rest & E & _ & _ & Hfb & Hp & _).
      exists r, w'. now rewrite E, Hfb, Hp.
    + destruct (camera_bring_up_spec hw xclk pf fs quality count w)
        as (r & w' & rest & E & _ & _ & Hfb & Hp & _).
      now exists r, w'.
Qed.

(** ** The sensor life cycle: [camera_init] *)

(** C3. [camera_init] is idempotent: when the sensor is initialized and
    the five arguments equal the cached clock frequency, pixel format,
    frame size, JPEG quality and buffer count, the call returns [ESP_OK]
    and leaves the whole state, log of driver calls included, as it was:
    neither a teardown nor an initialization takes place. *)
Theorem camera_init_idempotent hw xclk pf fs quality count w :
  inited (camera w) = true ->
  xclk = cur_xclk_freq_hz (camera w) ->
  pf = cur_pixel_format (camera w) ->
  fs = cur_frame_size (camera w) ->
  quality = cur_jpeg_quality (camera w) ->
  count = cur_fb_count (camera w) ->
  camera_init hw xclk pf fs quality count w = Done ESP_OK w.
Proof.
  intros Hi -> -> -> -> ->. rewrite camera_init_cases.
  replace (already_inited _ _ _ _ _ _) with true; [reflexivity|].
  symmetry. apply already_inited_iff. now split.
Qed.

(** C4. When the sensor is initialized and the requested configuration
    differs from the cached one in at least one field, [camera_init]
    returns all frame buffers, deinitializes the sensor, clears the
    initialized flag and only then runs the initialization with the new
    configuration: the call is the initialization run from the torn-down
    state, and the start and stop calls it adds to the log are exactly
    [esp_camera_return_all], [esp_camera_deinit], [esp_camera_init] in
    this order, once each. *)
Theorem camera_init_reconfigures hw xclk pf fs quality count w :
  inited (camera w) = true ->
  mk_camera_config xclk pf fs quality count <> cached_config (camera w) ->
  camera_init hw xclk pf fs quality count w =
    camera_bring_up hw xclk pf fs quality count (torn_down w)
  /\ calls (torn_down w) = calls w ++ [esp_camera_return_all; esp_camera_deinit]
  /\ inited (camera (torn_down w)) = false
  /\ exists r w' rest,
       camera_init hw xclk pf fs quality count w = Done r w'
       /\ calls w' =
          calls w ++ [esp_camera_return_all; esp_camera_deinit;
                      esp_camera_init (mk_camera_config xclk pf fs quality count)]
                  ++ rest
       /\ filter is_lifecycle_call rest = [].
Proof.
  intros Hi Hneq.
  assert (E : camera_init hw xclk pf fs quality count w =
              camera_bring_up hw xclk pf fs quality count (torn_down w)).
  { rewrite camera_init_cases, already_inited_false, Hi; [reflexivity|].
    right. congruence. }
  split; [exact E|]. split; [reflexivity|]. split; [reflexivity|].
  destruct (camera_bring_up_spec hw xclk pf fs quality count (torn_down w))
    as (r & w' & rest & Hrun & Hcalls & Hrest & _).
  exists r, w', rest. split; [congruence|]. split; [|exact Hrest].
  rewrite Hcalls. cbn. rewrite <- app_assoc. reflexivity.
Qed.

(** C7. An initialization attempt (the sensor is not already running
    with the requested configuration) in which the driver starts but the
    sensor reports no JPEG support returns [ESP_ERR_NOT_SUPPORTED]; the
    initialized flag is false afterwards and the cached configuration is
    not written.  A later attempt against a sensor that supports JPEG is
    then accepted. *)
Theorem camera_init_jpeg_unsupported hw xclk pf fs quality count w :
  already_inited (camera w) xclk pf fs quality count = false ->
  init_status hw = ESP_OK ->
  support_jpeg hw = false ->
  exists w',
    camera_init hw xclk pf fs quality count w = Done ESP_ERR_NOT_SUPPORTED w'
    /\ inited (camera w') = false
    /\ cached_config (camera w') = cached_config (camera w)
    /\ forall hw2 xclk2 fs2 quality2 count2,
         init_status hw2 = ESP_OK ->
         support_jpeg hw2 = true ->
         exists w'',
           camera_init hw2 xclk2 PIXFORMAT_JPEG fs2 quality2 count2 w' = Done ESP_OK w''
           /\ inited (camera w'') = true
           /\ cached_config (camera w'') =
              mk_camera_config xclk2 PIXFORMAT_JPEG fs2 quality2 count2.
Proof.
  intros Hnot Hok Hj.
  rewrite camera_init_cases, Hnot.
  assert (Hlater : forall w', inited (camera w') = false ->
    forall hw2 xclk2 fs2 quality2 count2,
      init_status hw2 = ESP_OK -> support_jpeg hw2 = true ->
      exists w'',
        camera_init hw2 xclk2 PIXFORMAT_JPEG fs2 quality2 count2 w' = Done ESP_OK w''
        /\ inited (camera w'') = true
        /\ cached_config (camera w'') =
           mk_camera_config xclk2 PIXFORMAT_JPEG fs2 quality2 count2).
  { intros w' Hw' hw2 xclk2 fs2 quality2 count2 Hok2 Hj2.
    rewrite camera_init_cases, already_inited_false, Hw' by now left.
    rewrite camera_bring_up_ok by assumption.
    eexists. split; [reflexivity|]. now split. }
  destruct (inited (camera w)) eqn:Hi.
  - rewrite camera_bring_up_unsupported by auto.
    eexists. split; [reflexivity|]. split; [reflexivity|]. split; [reflexivity|].
    apply Hlater. reflexivity.
  - rewrite camera_bring_up_unsupported by auto.
    eexists. split; [reflexivity|]. split; [exact Hi|]. split; [reflexivity|].
    apply Hlater. exact Hi.
Qed.

(** C9, as the code has it.  Whenever the driver starts, [camera_init]
    first sets the vertical flip for every sensor, whatever its product
    ID; after that the product ID selects: OV3660 gets brightness +1,
    saturation -2 and the vertical flip again, OV2640 the vertical flip
    again, GC0308 the horizontal mirror off, GC032A the vertical flip
    again, and any other sensor nothing more. *)
Theorem camera_init_adjustments hw xclk pf fs quality count w :
  already_inited (camera w) xclk pf fs quality count = false ->
  init_status hw = ESP_OK ->
  exists r w' l,
    camera_init hw xclk pf fs quality count w = Done r w'
    /\ calls w' = calls w ++ l
    /\ filter is_adjustment_call l =
       set_vflip 1 ::
       match sensor_PID hw with
       | OV3660_PID => [set_brightness 1; set_saturation (-2); set_vflip 1]
       | OV2640_PID => [set_vflip 1]
       | GC0308_PID => [set_hmirror 0]
       | GC032A_PID => [set_vflip 1]
       | PID_enum _ => []
       end.
Proof.
  intros Hnot Hok.
  assert (Hup : forall w0, exists r w' l,
             camera_bring_up hw xclk pf fs quality count w0 = Done r w'
             /\ calls w' = calls w0 ++ l
             /\ filter is_adjustment_call l = adjustment_calls (sensor_PID hw)).
  { intros w0.
    pose (l := [esp_camera_init (mk_camera_config xclk pf fs quality count);
                esp_camera_sensor_get]
               ++ adjustment_calls (sensor_PID hw) ++ [esp_camera_sensor_get_info]).
    assert (Hl : filter is_adjustment_call l = adjustment_calls (sensor_PID hw))
      by (unfold l; destruct (sensor_PID hw); reflexivity).
    destruct (pixformat_eq_dec pf PIXFORMAT_JPEG) as [Hpf|Hpf];
      [destruct (support_jpeg hw) eqn:Hj|].
    - subst pf. rewrite camera_bring_up_ok by assumption.
      exists ESP_OK. eexists. exists l. now repeat split.
    - rewrite camera_bring_up_unsupported by auto.
      exists ESP_ERR_NOT_SUPPORTED. eexists. exists l. now repeat split.
    - rewrite camera_bring_up_unsupported by auto.
      exists ESP_ERR_NOT_SUPPORTED. eexists. exists l. now repeat split. }
  rewrite camera_init_cases, Hnot.
  destruct (inited (camera w)).
  - destruct (Hup (torn_down w)) as (r & w' & l & E & Hc & Hl).
    exists r, w', ([esp_camera_return_all; esp_camera_deinit] ++ l).
    split; [exact E|]. split.
    + rewrite Hc. unfold torn_down. simpl calls. now rewrite <- app_assoc.
    + rewrite filter_app. simpl filter at 1. exact Hl.
  - destruct (Hup w) as (r & w' & l & E & Hc & Hl).
    exists r, w', l. now repeat split.
Qed.

(** ** Negotiation: [camera_start_cb] *)

Lemma map_resolution_none (width height : Z) :
  map_resolution width height = None <-> ~ In (width, height) mapped_resolutions.
Proof.
  split.
  - intros H Hin. simpl in Hin.
    repeat (destruct Hin as [E|Hin]; [inversion E; subst; discriminate H|]).
    exact Hin.
  - intros H. unfold map_resolution.
    repeat match goal with
    | |- context [(?a =? ?b) && (?c =? ?d)] =>
        destruct (Z.eqb_spec a b); destruct (Z.eqb_spec c d); simpl;
        try (exfalso; lia);
        try (exfalso; apply H; subst; simpl; tauto)
    end; reflexivity.
Qed.

Lemma table_resolutions_are_mapped :
  incl (map (fun r => (width r, height r)) mjpeg_frames) mapped_resolutions.
Proof.
  intros p Hp. simpl in Hp.
  repeat (destruct Hp as [<-|Hp]; [simpl; tauto|]). contradiction.
Qed.

Lemma camera_start_cb_cases xclk hw format width height rate w :
  rate <> 0 ->
  camera_start_cb xclk hw format width height rate w =
  let w1 := with_uvc_params (requested_params format width height rate) w in
  if negb (uvc_format_eqb format UVC_FORMAT_MJPEG) then Done ESP_ERR_NOT_SUPPORTED w1
  else match map_resolution width height with
       | None => Done ESP_ERR_NOT_SUPPORTED w1
       | Some (fs, quality) =>
           camera_init hw (to_uint32 xclk) PIXFORMAT_JPEG fs quality CAMERA_FB_COUNT w1
       end.
Proof.
  intros Hrate. unfold camera_start_cb, int_div, bind at 1 2.
  apply Z.eqb_neq in Hrate. rewrite Hrate. unfold ret at 1 2, raise.
  unfold bind at 1, set_uvc_params. cbv zeta.
  fold (requested_params format width height rate).
  destruct (negb (uvc_format_eqb format UVC_FORMAT_MJPEG)); [reflexivity|].
  destruct (map_resolution width height) as [[fs quality]|]; [|reflexivity].
  unfold bind, CAMERA_XCLK_FREQ.
  destruct (camera_init_total hw (to_uint32 xclk) PIXFORMAT_JPEG fs quality
              CAMERA_FB_COUNT
              (with_uvc_params (requested_params format width height rate) w))
    as (r & w' & E & _).
  rewrite E. destruct r; reflexivity.
Qed.

Lemma frame_interval_exact (rate : Z) :
  0 < rate -> to_uint32 (Z.quot 10000000 rate) = 10000000 / rate.
Proof.
  intros H. rewrite Z.quot_div_nonneg by lia.
  unfold to_uint32. apply Z.mod_small. split.
  - apply Z.div_pos; lia.
  - apply Z.le_lt_trans with 10000000; [|reflexivity].
    apply Z.div_le_upper_bound; nia.
Qed.

(** A frame rate of zero is not handled: the division traps before
    anything is stored. *)
Lemma camera_start_cb_zero_rate xclk hw format width height w :
  camera_start_cb xclk hw format width height 0 w = Trapped DivideByZero w.
Proof. reflexivity. Qed.

(** C1, as the code has it.  A request with a nonzero frame rate whose
    (width, height) pair is none of the six resolutions that
    [camera_start_cb] maps itself (320x240, 480x320, 640x480, 800x600,
    1280x720, 1920x1080) returns [ESP_ERR_NOT_SUPPORTED]; no driver call
    is made and the statics of [camera_init] are as before. *)
Theorem camera_start_cb_rejects_unmapped xclk hw format width height rate w :
  rate <> 0 ->
  ~ In (width, height) mapped_resolutions ->
  exists w',
    camera_start_cb xclk hw format width height rate w = Done ESP_ERR_NOT_SUPPORTED w'
    /\ calls w' = calls w
    /\ camera w' = camera w.
Proof.
  intros Hrate Hres. rewrite camera_start_cb_cases by assumption.
  apply map_resolution_none in Hres. rewrite Hres. cbv zeta.
  destruct (negb (uvc_format_eqb format UVC_FORMAT_MJPEG));
    eexists; (split; [reflexivity|]); now split.
Qed.

(** [camera_start_cb] returns for every nonzero frame rate, and
    [s_uvc_params] then holds the request, whatever the return value. *)
Lemma camera_start_cb_params xclk hw format width height rate w :
  rate <> 0 ->
  exists r w',
    camera_start_cb xclk hw format width height rate w = Done r w'
    /\ s_uvc_params w' = requested_params format width height rate.
Proof.
  intros Hrate. rewrite camera_start_cb_cases by assumption. cbv zeta.
  destruct (negb (uvc_format_eqb format UVC_FORMAT_MJPEG)).
  - eexists. eexists. split; reflexivity.
  - destruct (map_resolution width height) as [[fs quality]|].
    + destruct (camera_init_total hw (to_uint32 xclk) PIXFORMAT_JPEG fs quality
                  CAMERA_FB_COUNT
                  (with_uvc_params (requested_params format width height rate) w))
        as (r & w' & E & _ & Hp).
      exists r, w'. split; [exact E|]. rewrite Hp. reflexivity.
    + eexists. eexists. split; reflexivity.
Qed.

(** C2. For every request with a positive frame rate the callback
    returns and the stored [frame_interval] is the integer quotient
    10,000,000 / frame_rate; and every row of the capability table
    carries interval = 10,000,000 / rate, which is 333333 on the rows at
    30 fps and 666666 on the row at 15 fps. *)
Theorem frame_interval_is_quotient xclk hw format width height frame_rate w :
  0 < frame_rate ->
  (exists r w',
     camera_start_cb xclk hw format width height frame_rate w = Done r w'
     /\ p_frame_rate (s_uvc_params w') = frame_rate
     /\ p_frame_interval (s_uvc_params w') = 10000000 / frame_rate)
  /\ Forall (fun row => interval row = 10000000 / rate row
                        /\ (rate row = 30 -> interval row = 333333)
                        /\ (rate row = 15 -> interval row = 666666)) mjpeg_frames
  /\ map rate mjpeg_frames = [30; 30; 30; 15].
Proof.
  intros Hpos. split; [|split].
  - destruct (camera_start_cb_params xclk hw format width height frame_rate w)
      as (r & w' & E & Hp); [lia|].
    exists r, w'. split; [exact E|]. rewrite Hp. split; [reflexivity|].
    apply frame_interval_exact; assumption.
  - unfold mjpeg_frames. simpl nth.
    repeat constructor; simpl; intros; (reflexivity || discriminate).
  - reflexivity.
Qed.

(** C10. On every call with a nonzero frame rate, [s_uvc_params] holds
    the requested format, width, height and frame rate and the interval
    derived from the rate when the callback returns, whatever it returns:
    the record is written before the request is validated.  In
    particular a request rejected for its format or its resolution
    returns [ESP_ERR_NOT_SUPPORTED] without any driver call, and the
    record describes the rejected request. *)
Theorem camera_start_cb_stores_request xclk hw format width height rate w :
  rate <> 0 ->
  exists r w',
    camera_start_cb xclk hw format width height rate w = Done r w'
    /\ s_uvc_params w' =
       mk_uvc_params format width height rate (to_uint32 (Z.quot 10000000 rate))
    /\ (format <> UVC_FORMAT_MJPEG \/ ~ In (width, height) mapped_resolutions ->
        r = ESP_ERR_NOT_SUPPORTED
        /\ calls w' = calls w
        /\ camera w' = camera w).
Proof.
  intros Hrate.
  destruct (camera_start_cb_params xclk hw format width height rate w Hrate)
    as (r & w' & E & Hp).
  exists r, w'. split; [exact E|]. split; [exact Hp|].
  intros Hbad. rewrite camera_start_cb_cases in E by assumption. cbv zeta in E.
  destruct Hbad as [Hfmt|Hres].
  - assert (Hf : uvc_format_eqb format UVC_FORMAT_MJPEG = false)
      by (apply not_true_is_false; now rewrite uvc_format_eqb_eq).
    rewrite Hf in E. simpl in E. injection E as <- <-. now repeat split.
  - apply map_resolution_none in Hres. rewrite Hres in E.
    destruct (negb (uvc_format_eqb format UVC_FORMAT_MJPEG));
      injection E as <- <-; now repeat split.
Qed.

(** A successful negotiation of a mapped MJPEG resolution on a sensor
    that is not initialized. *)
Lemma camera_start_cb_fresh xclk hw width height rate fs quality w :
  rate <> 0 ->
  map_resolution width height = Some (fs, quality) ->
  inited (camera w) = false ->
  init_status hw = ESP_OK ->
  support_jpeg hw = true ->
  camera_start_cb xclk hw UVC_FORMAT_MJPEG width height rate w =
  Done ESP_OK
    (with_camera
       (mk_camera_statics true (to_uint32 xclk) PIXFORMAT_JPEG fs quality CAMERA_FB_COUNT)
       (log_calls
          ([esp_camera_init
              (mk_camera_config (to_uint32 xclk) PIXFORMAT_JPEG fs quality CAMERA_FB_COUNT);
            esp_camera_sensor_get]
           ++ adjustment_calls (sensor_PID hw) ++ [esp_camera_sensor_get_info])
          (with_uvc_params (requested_params UVC_FORMAT_MJPEG width height rate) w))).
Proof.
  intros Hrate Hmap Hi Hok Hj.
  rewrite camera_start_cb_cases by assumption. cbv zeta.
  change (negb (uvc_format_eqb UVC_FORMAT_MJPEG UVC_FORMAT_MJPEG)) with false.
  cbv iota. rewrite Hmap.
  rewrite camera_init_cases, already_inited_false by (left; exact Hi).
  change (inited (camera (with_uvc_params
            (requested_params UVC_FORMAT_MJPEG width height rate) w)))
    with (inited (camera w)).
  rewrite Hi. apply camera_bring_up_ok; assumption.
Qed.

(** A successful negotiation of a mapped MJPEG resolution on a sensor
    that runs with another configuration. *)
Lemma camera_start_cb_switch xclk hw width height rate fs quality w :
  rate <> 0 ->
  map_resolution width height = Some (fs, quality) ->
  inited (camera w) = true ->
  cached_config (camera w) <>
    mk_camera_config (to_uint32 xclk) PIXFORMAT_JPEG fs quality CAMERA_FB_COUNT ->
  init_status hw = ESP_OK ->
  support_jpeg hw = true ->
  camera_start_cb xclk hw UVC_FORMAT_MJPEG width height rate w =
  Done ESP_OK
    (with_camera
       (mk_camera_statics true (to_uint32 xclk) PIXFORMAT_JPEG fs quality CAMERA_FB_COUNT)
       (log_calls
          ([esp_camera_init
              (mk_camera_config (to_uint32 xclk) PIXFORMAT_JPEG fs quality CAMERA_FB_COUNT);
            esp_camera_sensor_get]
           ++ adjustment_calls (sensor_PID hw) ++ [esp_camera_sensor_get_info])
          (torn_down
             (with_uvc_params (requested_params UVC_FORMAT_MJPEG width height rate) w)))).
Proof.
  intros Hrate Hmap Hi Hneq Hok Hj.
  rewrite camera_start_cb_cases by assumption. cbv zeta.
  change (negb (uvc_format_eqb UVC_FORMAT_MJPEG UVC_FORMAT_MJPEG)) with false.
  cbv iota. rewrite Hmap.
  rewrite camera_init_cases, already_inited_false by (right; exact Hneq).
  change (inited (camera (with_uvc_params
            (requested_params UVC_FORMAT_MJPEG width height rate) w)))
    with (inited (camera w)).
  rewrite Hi. apply camera_bring_up_ok; assumption.
Qed.

(** C8. On a sensor that is not yet initialized and a driver that starts
    and supports JPEG, negotiating MJPEG 640x480 at 30 fps succeeds with
    frame_interval 333333, frame size VGA and JPEG quality 12, without
    any teardown; negotiating MJPEG 1280x720 at 15 fps next succeeds with
    frame_interval 666666, frame size HD and JPEG quality 16, after one
    teardown ([esp_camera_return_all], [esp_camera_deinit]) and one
    [esp_camera_init] with the new configuration. *)
Theorem negotiate_vga_then_hd xclk hw1 hw2 w0 :
  inited (camera w0) = false ->
  init_status hw1 = ESP_OK -> support_jpeg hw1 = true ->
  init_status hw2 = ESP_OK -> support_jpeg hw2 = true ->
  exists w1 w2 rest1 rest2,
    camera_start_cb xclk hw1 UVC_FORMAT_MJPEG 640 480 30 w0 = Done ESP_OK w1
    /\ p_frame_interval (s_uvc_params w1) = 333333
    /\ inited (camera w1) = true
    /\ cur_frame_size (camera w1) = FRAMESIZE_VGA
    /\ cur_jpeg_quality (camera w1) = 12
    /\ calls w1 =
       calls w0
       ++ [esp_camera_init
             (mk_camera_config (to_uint32 xclk) PIXFORMAT_JPEG FRAMESIZE_VGA 12 2)]
       ++ rest1
    /\ filter is_lifecycle_call rest1 = []
    /\ camera_start_cb xclk hw2 UVC_FORMAT_MJPEG 1280 720 15 w1 = Done ESP_OK w2
    /\ p_frame_interval (s_uvc_params w2) = 666666
    /\ inited (camera w2) = true
    /\ cur_frame_size (camera w2) = FRAMESIZE_HD
    /\ cur_jpeg_quality (camera w2) = 16
    /\ calls w2 =
       calls w1
       ++ [esp_camera_return_all; esp_camera_deinit;
           esp_camera_init
             (mk_camera_config (to_uint32 xclk) PIXFORMAT_JPEG FRAMESIZE_HD 16 2)]
       ++ rest2
    /\ filter is_lifecycle_call rest2 = [].
Proof.
  intros Hi Hok1 Hj1 Hok2 Hj2.
  pose proof (camera_start_cb_fresh xclk hw1 640 480 30 FRAMESIZE_VGA 12 w0
                ltac:(lia) eq_refl Hi Hok1 Hj1) as E1.
  match type of E1 with _ = Done _ ?w => set (w1 := w) in * end.
  assert (Hneq : cached_config (camera w1) <>
                 mk_camera_config (to_uint32 xclk) PIXFORMAT_JPEG FRAMESIZE_HD 16
                   CAMERA_FB_COUNT) by discriminate.
  pose proof (camera_start_cb_switch xclk hw2 1280 720 15 FRAMESIZE_HD 16 w1
                ltac:(lia) eq_refl eq_refl Hneq Hok2 Hj2) as E2.
  match type of E2 with _ = Done _ ?w => set (w2 := w) in * end.
  exists w1, w2.
  exists (esp_camera_sensor_get
          :: adjustment_calls (sensor_PID hw1) ++ [esp_camera_sensor_get_info]).
  exists (esp_camera_sensor_get
          :: adjustment_calls (sensor_PID hw2) ++ [esp_camera_sensor_get_info]).
  split; [exact E1|].
  split; [reflexivity|]. split; [reflexivity|]. split; [reflexivity|].
  split; [reflexivity|]. split; [reflexivity|].
  split; [destruct (sensor_PID hw1); reflexivity|].
  split; [exact E2|].
  split; [reflexivity|]. split; [reflexivity|]. split; [reflexivity|].
  split; [reflexivity|].
  split; [|destruct (sensor_PID hw2); reflexivity].
  subst w2. unfold torn_down. simpl calls. rewrite <- !app_assoc. reflexivity.
Qed.

(** ** Frame exchange: [camera_fb_get_cb] and [camera_fb_return_cb] *)

(** C5. When the sensor delivers a frame longer than
    [UVC_MAX_FRAMESIZE_SIZE], [camera_fb_get_cb] returns the null
    pointer and the driver calls it makes are the frame request and one
    [esp_camera_fb_return] of that very frame; it does not trap. *)
Theorem camera_fb_get_cb_oversized target hw fb w :
  next_frame hw = Some fb ->
  fb_len fb > UVC_MAX_FRAMESIZE_SIZE target ->
  exists w',
    camera_fb_get_cb target hw w = Done NULL w'
    /\ calls w' = calls w ++ [esp_camera_fb_get; esp_camera_fb_return (Some fb)]
    /\ filter is_fb_return [esp_camera_fb_get; esp_camera_fb_return (Some fb)]
       = [esp_camera_fb_return (Some fb)].
Proof.
  intros Hfb Hlen.
  unfold camera_fb_get_cb, do_esp_camera_fb_get, bind, call, ret, get_s_fb, set_s_fb.
  rewrite Hfb.
  apply Z.gt_lt, Z.gtb_lt in Hlen. rewrite Hlen.
  eexists. split; [reflexivity|]. split; [|reflexivity].
  unfold log_calls, with_s_fb. simpl calls. rewrite <- app_assoc. reflexivity.
Qed.

(** C6, as the code has it.  [camera_fb_return_cb] checks the address
    of the handle and nothing else.  In every state, a release of
    [&s_fb.uvc_fb], the only descriptor [camera_fb_get_cb] ever hands
    out, passes the assertion and makes exactly one driver call,
    [esp_camera_fb_return] on [s_fb.cam_fb_p]; a release of any other
    pointer value, the null pointer included, trips the assertion before
    anything is returned, the state being left as it was.  When the
    state is the one left by a frame request that handed out a
    descriptor, that descriptor is [&s_fb.uvc_fb] and [s_fb.cam_fb_p] is
    the sensor buffer it aliases, so the release returns the paired
    buffer. *)
Theorem camera_fb_return_cb_address_check (h : uvc_fb_ptr) (w : world) :
  (h = addr_s_fb_uvc_fb ->
   camera_fb_return_cb h w =
   Done tt (log_calls [esp_camera_fb_return (cam_fb_p (s_fb w))] w))
  /\ (h <> addr_s_fb_uvc_fb -> camera_fb_return_cb h w = Trapped AssertFailed w)
  /\ (forall target hw w0 h0,
        camera_fb_get_cb target hw w0 = Done h0 w ->
        h0 <> NULL ->
        h0 = addr_s_fb_uvc_fb
        /\ exists fb,
             next_frame hw = Some fb
             /\ cam_fb_p (s_fb w) = Some fb
             /\ uvc_buf (uvc_fb (s_fb w)) = fb_buf fb
             /\ camera_fb_return_cb h0 w =
                Done tt (log_calls [esp_camera_fb_return (Some fb)] w)).
Proof.
  split; [|split].
  - intros ->. reflexivity.
  - intros Hh. unfold camera_fb_return_cb, bind, c_assert.
    destruct (uvc_fb_ptr_eq_dec h addr_s_fb_uvc_fb); [contradiction|reflexivity].
  - intros target hw w0 h0 Hget Hnn.
    unfold camera_fb_get_cb, do_esp_camera_fb_get, bind, call, ret, get_s_fb,
      set_s_fb in Hget.
    destruct (next_frame hw) as [fb|] eqn:Hfb.
    + destruct (fb_len fb >? UVC_MAX_FRAMESIZE_SIZE target).
      * injection Hget as <- _. contradiction.
      * injection Hget as <- <-. split; [reflexivity|].
        exists fb. now repeat split.
    + injection Hget as <- _. contradiction.
Qed.

Lemma camera_fb_return_cb_foreign (h : uvc_fb_ptr) (w : world) :
  h <> addr_s_fb_uvc_fb -> camera_fb_return_cb h w = Trapped AssertFailed w.
Proof.
  intros Hh. unfold camera_fb_return_cb, bind, c_assert.
  destruct (uvc_fb_ptr_eq_dec h addr_s_fb_uvc_fb); [contradiction|reflexivity].
Qed.

(** ** The properties at concrete requests *)

(** Counterexample to C1 as worded: 1920x1080 is not a row of
    [UVC_FRAMES_INFO], yet negotiating MJPEG 1920x1080 at 60 fps from the
    boot state returns [ESP_OK] and starts the sensor at frame size FHD. *)
Lemma fhd_60fps_is_accepted :
  ~ In (1920, 1080) (map (fun row => (width row, height row)) mjpeg_frames)
  /\ camera_start_cb 20000000 ov2640_ok UVC_FORMAT_MJPEG 1920 1080 60 boot_world =
     Done ESP_OK
       (mk_world (s_fb boot_world)
          (mk_uvc_params UVC_FORMAT_MJPEG 1920 1080 60 166666)
          (mk_camera_statics true 20000000 PIXFORMAT_JPEG FRAMESIZE_FHD 16 2)
          [esp_camera_init
             (mk_camera_config 20000000 PIXFORMAT_JPEG FRAMESIZE_FHD 16 2);
           esp_camera_sensor_get; set_vflip 1; set_vflip 1;
           esp_camera_sensor_get_info]).
Proof.
  split.
  - simpl. intuition discriminate.
  - vm_compute. reflexivity.
Qed.

(** Counterexample to C9 as worded: a sensor whose product ID is none
    of the four named ones still has its vertical flip set. *)
Lemma unknown_sensor_is_flipped :
  exists w',
    camera_init ov5640_ok 20000000 PIXFORMAT_JPEG FRAMESIZE_VGA 12 2 boot_world =
    Done ESP_OK w'
    /\ filter is_adjustment_call (calls w') = [set_vflip 1].
Proof. eexists. split; vm_compute; reflexivity. Qed.

(** Counterexample to C6 as worded: at boot no frame is ready, so the
    frame request returns the null pointer.  A release of
    [&s_fb.uvc_fb], which is not the value that request returned, does
    not trip the assertion: it returns and hands the null
    [s_fb.cam_fb_p] to [esp_camera_fb_return].  A release of the null
    pointer, which is the value the request returned, trips it. *)
Lemma release_after_empty_request :
  exists w1,
    camera_fb_get_cb true ov2640_ok boot_world = Done NULL w1
    /\ addr_s_fb_uvc_fb <> NULL
    /\ camera_fb_return_cb addr_s_fb_uvc_fb w1 =
       Done tt (log_calls [esp_camera_fb_return None] w1)
    /\ camera_fb_return_cb addr_s_fb_uvc_fb w1 <> Trapped AssertFailed w1
    /\ camera_fb_return_cb NULL w1 = Trapped AssertFailed w1.
Proof.
  eexists. split; [reflexivity|]. split; [discriminate|].
  split; [reflexivity|]. split; [discriminate|reflexivity].
Qed.

Lemma camera_init_idempotent_witness :
  inited (camera vga_world) = true
  /\ camera_init ov2640_ok 20000000 PIXFORMAT_JPEG FRAMESIZE_VGA 12 2 vga_world =
     Done ESP_OK vga_world.
Proof.
  split; [reflexivity|].
  apply (camera_init_idempotent ov2640_ok 20000000 PIXFORMAT_JPEG FRAMESIZE_VGA 12 2
           vga_world); reflexivity.
Defined.

Lemma camera_init_reconfigures_witness :
  exists r w' rest,
    camera_init ov2640_ok 20000000 PIXFORMAT_JPEG FRAMESIZE_HD 16 2 vga_world = Done r w'
    /\ calls w' =
       calls vga_world
       ++ [esp_camera_return_all; esp_camera_deinit;
           esp_camera_init (mk_camera_config 20000000 PIXFORMAT_JPEG FRAMESIZE_HD 16 2)]
       ++ rest
    /\ filter is_lifecycle_call rest = [].
Proof.
  apply (camera_init_reconfigures ov2640_ok 20000000 PIXFORMAT_JPEG FRAMESIZE_HD 16 2
           vga_world); [reflexivity | simpl; discriminate].
Defined.

Lemma camera_init_jpeg_unsupported_witness :
  exists w',
    camera_init no_jpeg_sensor 20000000 PIXFORMAT_JPEG FRAMESIZE_VGA 12 2 boot_world =
    Done ESP_ERR_NOT_SUPPORTED w'
    /\ inited (camera w') = false
    /\ cached_config (camera w') = cached_config (camera boot_world).
Proof.
  destruct (camera_init_jpeg_unsupported no_jpeg_sensor 20000000 PIXFORMAT_JPEG
              FRAMESIZE_VGA 12 2 boot_world eq_refl eq_refl eq_refl)
    as (w' & E & Hi & Hc & _).
  exists w'. split; [exact E|]. split; [exact Hi|exact Hc].
Defined.

Lemma camera_init_adjustments_witness :
  exists r w' l,
    camera_init ov5640_ok 20000000 PIXFORMAT_JPEG FRAMESIZE_VGA 12 2 boot_world =
    Done r w'
    /\ calls w' = calls boot_world ++ l
    /\ filter is_adjustment_call l = [set_vflip 1].
Proof.
  apply (camera_init_adjustments ov5640_ok 20000000 PIXFORMAT_JPEG FRAMESIZE_VGA 12 2
           boot_world); reflexivity.
Defined.

Lemma camera_start_cb_rejects_unmapped_witness :
  ~ In (1024, 768) mapped_resolutions
  /\ exists w',
       camera_start_cb 20000000 ov2640_ok UVC_FORMAT_MJPEG 1024 768 30 boot_world =
       Done ESP_ERR_NOT_SUPPORTED w'
       /\ calls w' = calls boot_world
       /\ camera w' = camera boot_world.
Proof.
  assert (H : ~ In (1024, 768) mapped_resolutions) by (simpl; intuition discriminate).
  split; [exact H|].
  apply (camera_start_cb_rejects_unmapped 20000000 ov2640_ok UVC_FORMAT_MJPEG
           1024 768 30 boot_world); [lia | exact H].
Defined.

Lemma frame_interval_is_quotient_witness :
  exists r w',
    camera_start_cb 20000000 ov2640_ok UVC_FORMAT_MJPEG 1280 720 15 boot_world =
    Done r w'
    /\ p_frame_rate (s_uvc_params w') = 15
    /\ p_frame_interval (s_uvc_params w') = 10000000 / 15.
Proof.
  apply (frame_interval_is_quotient 20000000 ov2640_ok UVC_FORMAT_MJPEG 1280 720 15
           boot_world); lia.
Defined.

Lemma camera_start_cb_stores_request_witness :
  exists r w',
    camera_start_cb 20000000 ov2640_ok (UVC_FORMAT_enum 2) 1024 768 60 boot_world =
    Done r w'
    /\ s_uvc_params w' = mk_uvc_params (UVC_FORMAT_enum 2) 1024 768 60 166666.
Proof.
  destruct (camera_start_cb_stores_request 20000000 ov2640_ok (UVC_FORMAT_enum 2)
              1024 768 60 boot_world ltac:(lia))
    as (r & w' & E & Hp & _).
  exists r, w'. split; [exact E|exact Hp].
Defined.

Lemma negotiate_vga_then_hd_witness :
  exists w1 w2,
    camera_start_cb 20000000 ov2640_ok UVC_FORMAT_MJPEG 640 480 30 boot_world =
    Done ESP_OK w1
    /\ p_frame_interval (s_uvc_params w1) = 333333
    /\ camera_start_cb 20000000 ov2640_ok UVC_FORMAT_MJPEG 1280 720 15 w1 =
       Done ESP_OK w2
    /\ p_frame_interval (s_uvc_params w2) = 666666.
Proof.
  destruct (negotiate_vga_then_hd 20000000 ov2640_ok ov2640_ok boot_world
              eq_refl eq_refl eq_refl eq_refl eq_refl)
    as (w1 & w2 & rest1 & rest2 & E1 & I1 & _ & _ & _ & _ & _ & E2 & I2 & _).
  exists w1, w2. repeat split; assumption.
Defined.

Lemma camera_fb_get_cb_oversized_witness :
  fb_len large_frame > UVC_MAX_FRAMESIZE_SIZE true
  /\ exists w',
       camera_fb_get_cb true (delivers large_frame) boot_world = Done NULL w'
       /\ calls w' =
          calls boot_world ++ [esp_camera_fb_get; esp_camera_fb_return (Some large_frame)].
Proof.
  assert (H : fb_len large_frame > UVC_MAX_FRAMESIZE_SIZE true) by reflexivity.
  split; [exact H|].
  destruct (camera_fb_get_cb_oversized true (delivers large_frame) large_frame
              boot_world eq_refl H) as (w' & E & Hc & _).
  exists w'. split; [exact E|exact Hc].
Defined.

Lemma camera_fb_return_cb_address_check_witness :
  camera_fb_return_cb addr_s_fb_uvc_fb boot_world =
    Done tt (log_calls [esp_camera_fb_return None] boot_world)
  /\ camera_fb_return_cb NULL boot_world = Trapped AssertFailed boot_world
  /\ exists w1,
       camera_fb_get_cb true (delivers small_frame) boot_world =
       Done addr_s_fb_uvc_fb w1
       /\ camera_fb_return_cb addr_s_fb_uvc_fb w1 =
          Done tt (log_calls [esp_camera_fb_return (Some small_frame)] w1).
Proof.
  split; [|split].
  - apply (proj1 (camera_fb_return_cb_address_check addr_s_fb_uvc_fb boot_world)).
    reflexivity.
  - apply (proj1 (proj2 (camera_fb_return_cb_address_check NULL boot_world))).
    discriminate.
  - eexists. split; [reflexivity|].
    destruct (proj2 (proj2 (camera_fb_return_cb_address_check addr_s_fb_uvc_fb _))
                true (delivers small_frame) boot_world addr_s_fb_uvc_fb eq_refl
                ltac:(discriminate))
      as (_ & fb & Hfb & _ & _ & E).
    injection Hfb as <-. exact E.
Defined.

(** ** Further properties of the frame exchange *)

(** X1. When the sensor has no frame ready, [camera_fb_get_cb] returns
    the null pointer after the single driver call [esp_camera_fb_get];
    [s_fb.cam_fb_p] is null afterwards, the descriptor [s_fb.uvc_fb] and
    the rest of the state are as before, and nothing traps. *)
Theorem camera_fb_get_cb_no_frame target hw w :
  next_frame hw = None ->
  exists w',
    camera_fb_get_cb target hw w = Done NULL w'
    /\ calls w' = calls w ++ [esp_camera_fb_get]
    /\ cam_fb_p (s_fb w') = None
    /\ uvc_fb (s_fb w') = uvc_fb (s_fb w)
    /\ camera w' = camera w
    /\ s_uvc_params w' = s_uvc_params w.
Proof.
  intros Hnone.
  unfold camera_fb_get_cb, do_esp_camera_fb_get, bind, call, ret, get_s_fb, set_s_fb.
  rewrite Hnone. eexists. split; [reflexivity|]. now repeat split.
Qed.

(** X2. When the sensor delivers a frame of at most
    [UVC_MAX_FRAMESIZE_SIZE] bytes, [camera_fb_get_cb] returns the
    address of [s_fb.uvc_fb]; the descriptor carries the buffer address,
    length, width, height, format and timestamp of the sensor frame (the
    data is not copied), [s_fb.cam_fb_p] points to the frame, and the
    only driver call is [esp_camera_fb_get]: the buffer stays checked
    out. *)
Theorem camera_fb_get_cb_frame target hw fb w :
  next_frame hw = Some fb ->
  fb_len fb <= UVC_MAX_FRAMESIZE_SIZE target ->
  exists w',
    camera_fb_get_cb target hw w = Done addr_s_fb_uvc_fb w'
    /\ calls w' = calls w ++ [esp_camera_fb_get]
    /\ cam_fb_p (s_fb w') = Some fb
    /\ uvc_fb (s_fb w') =
       mk_uvc_fb (fb_buf fb) (fb_len fb) (fb_width fb) (fb_height fb)
         (fb_format fb) (fb_timestamp fb).
Proof.
  intros Hfb Hlen.
  unfold camera_fb_get_cb, do_esp_camera_fb_get, bind, call, ret, get_s_fb, set_s_fb.
  rewrite Hfb.
  assert (E : (fb_len fb >? UVC_MAX_FRAMESIZE_SIZE target) = false)
    by (rewrite Z.gtb_ltb; apply Z.ltb_ge; exact Hlen).
  rewrite E. eexists. split; [reflexivity|]. now repeat split.
Qed.

(** X3. [camera_fb_get_cb] always returns, and its result is either the
    null pointer or the address of [s_fb.uvc_fb]; in the second case
    the length in the descriptor is at most [UVC_MAX_FRAMESIZE_SIZE],
    the size of the transport buffer, and the descriptor aliases the
    frame the sensor has just delivered. *)
Theorem camera_fb_get_cb_bounded target hw w :
  exists h w',
    camera_fb_get_cb target hw w = Done h w'
    /\ (h = NULL \/ h = addr_s_fb_uvc_fb)
    /\ (h = addr_s_fb_uvc_fb ->
        uvc_len (uvc_fb (s_fb w')) <= UVC_MAX_FRAMESIZE_SIZE target
        /\ exists fb,
             next_frame hw = Some fb
             /\ cam_fb_p (s_fb w') = Some fb
             /\ uvc_buf (uvc_fb (s_fb w')) = fb_buf fb
             /\ uvc_len (uvc_fb (s_fb w')) = fb_len fb).
Proof.
  unfold camera_fb_get_cb, do_esp_camera_fb_get, bind, call, ret, get_s_fb, set_s_fb.
  destruct (next_frame hw) as [fb|].
  - destruct (fb_len fb >? UVC_MAX_FRAMESIZE_SIZE target) eqn:Hlen.
    + eexists. eexists. split; [reflexivity|]. split; [now left|discriminate].
    + eexists. eexists. split; [reflexivity|]. split; [now right|].
      intros _. simpl. split.
      * rewrite Z.gtb_ltb in Hlen. apply Z.ltb_ge in Hlen. exact Hlen.
      * exists fb. now repeat split.
  - eexists. eexists. split; [reflexivity|]. split; [now left|discriminate].
Qed.

Lemma exchange_cycle_returns target hw w :
  exists w',
    exchange_cycle target hw w = Done tt w'
    /\ calls w' =
       calls w ++ esp_camera_fb_get ::
       match next_frame hw with
       | Some fb => [esp_camera_fb_return (Some fb)]
       | None => []
       end
    /\ camera w' = camera w
    /\ s_uvc_params w' = s_uvc_params w.
Proof.
  unfold exchange_cycle, camera_fb_get_cb, do_esp_camera_fb_get, bind, call, ret,
    get_s_fb, set_s_fb.
  destruct (next_frame hw) as [fb|].
  - destruct (fb_len fb >? UVC_MAX_FRAMESIZE_SIZE target).
    + eexists. split; [reflexivity|]. split; [|now split].
      unfold log_calls, with_s_fb. simpl calls. now rewrite <- app_assoc.
    + unfold camera_fb_return_cb, bind, c_assert, ret, get_s_fb, call. simpl.
      eexists. split; [reflexivity|]. split; [|now split].
      unfold log_calls, with_s_fb. simpl calls. now rewrite <- app_assoc.
  - eexists. split; [reflexivity|]. now repeat split.
Qed.

(** X4. Over any number of exchange cycles (a frame request, then the
    release of the descriptor when one was handed out) nothing traps,
    there is one [esp_camera_fb_get] per cycle, and the buffers given
    back with [esp_camera_fb_return] are exactly the frames the sensor
    delivered, in the order of delivery and once each, whether a frame
    was transmitted or dropped for its size.  The sensor cache and
    [s_uvc_params] are not touched. *)
Theorem exchange_cycles_balanced target hws w :
  exists w' l,
    exchange_cycles target hws w = Done tt w'
    /\ calls w' = calls w ++ l
    /\ filter is_fb_return l = map esp_camera_fb_return (delivered hws)
    /\ filter (fun c => negb (is_fb_return c)) l = repeat esp_camera_fb_get (length hws)
    /\ camera w' = camera w
    /\ s_uvc_params w' = s_uvc_params w.
Proof.
  revert w. induction hws as [|hw rest IH]; intros w.
  - exists w, []. split; [reflexivity|]. rewrite app_nil_r. now repeat split.
  - destruct (exchange_cycle_returns target hw w) as (w1 & E1 & Hc1 & Hcam1 & Hp1).
    destruct (IH w1) as (w' & l & E & Hc & Hret & Hget & Hcam & Hp).
    exists w'. eexists.
    split; [simpl; unfold bind at 1; rewrite E1; exact E|].
    split; [rewrite Hc, Hc1, <- app_assoc; reflexivity|].
    split; [|split; [|split; congruence]].
    + rewrite filter_app, Hret. simpl. destruct (next_frame hw); reflexivity.
    + rewrite filter_app, Hget. simpl. destruct (next_frame hw); reflexivity.
Qed.

(** X5. The assertion in [camera_fb_return_cb] compares addresses only.
    After a frame request that returned the null pointer, a release of
    [&s_fb.uvc_fb] is not stopped: it passes [s_fb.cam_fb_p] to
    [esp_camera_fb_return] once more, which is the null pointer when no
    frame was ready and the buffer already given back when the frame
    was dropped for its size. *)
Theorem camera_fb_return_cb_after_null target hw w w1 :
  camera_fb_get_cb target hw w = Done NULL w1 ->
  exists w2,
    camera_fb_return_cb addr_s_fb_uvc_fb w1 = Done tt w2
    /\ calls w2 = calls w1 ++ [esp_camera_fb_return (next_frame hw)]
    /\ (forall fb, next_frame hw = Some fb ->
        calls w2 =
        calls w ++ [esp_camera_fb_get; esp_camera_fb_return (Some fb);
                    esp_camera_fb_return (Some fb)]).
Proof.
  intros Hget.
  unfold camera_fb_get_cb, do_esp_camera_fb_get, bind, call, ret, get_s_fb, set_s_fb
    in Hget.
  destruct (next_frame hw) as [fb|] eqn:Hfb.
  - destruct (fb_len fb >? UVC_MAX_FRAMESIZE_SIZE target); [|discriminate Hget].
    injection Hget as <-. eexists. split; [reflexivity|]. split; [reflexivity|].
    intros fb' Hfb'. injection Hfb' as <-.
    unfold log_calls, with_s_fb. simpl calls. rewrite <- !app_assoc. reflexivity.
  - injection Hget as <-. eexists. split; [reflexivity|]. split; [reflexivity|].
    discriminate.
Qed.

(** ** Further properties of the sensor life cycle *)

(** X6. [camera_init] always returns, and its result agrees with the
    state it leaves: on [ESP_OK] the sensor is marked initialized and
    the cache holds exactly the requested configuration; on any other
    result the sensor is marked uninitialized. *)
Theorem camera_init_result_matches_state hw xclk pf fs quality count w :
  exists r w',
    camera_init hw xclk pf fs quality count w = Done r w'
    /\ (r = ESP_OK ->
        inited (camera w') = true
        /\ cached_config (camera w') = mk_camera_config xclk pf fs quality count)
    /\ (r <> ESP_OK -> inited (camera w') = false).
Proof.
  rewrite camera_init_cases.
  destruct (already_inited (camera w) xclk pf fs quality count) eqn:Ha.
  - apply already_inited_iff in Ha. exists ESP_OK, w.
    split; [reflexivity|]. split; [intros _; exact Ha|congruence].
  - destruct (inited (camera w)) eqn:Hi.
    + destruct (camera_bring_up_spec hw xclk pf fs quality count (torn_down w))
        as (r & w' & rest & E & _ & _ & _ & _ & Hok & Hko).
      exists r, w'. split; [exact E|]. split; [exact Hok|].
      intros Hr. rewrite (Hko Hr). reflexivity.
    + destruct (camera_bring_up_spec hw xclk pf fs quality count w)
        as (r & w' & rest & E & _ & _ & _ & _ & Hok & Hko).
      exists r, w'. split; [exact E|]. split; [exact Hok|].
      intros Hr. rewrite (Hko Hr). exact Hi.
Qed.

(** X7. When [esp_camera_init] fails during a switch to another
    configuration, [camera_init] returns the driver's error code as it
    is; the running sensor has been torn down by then, so the driver
    calls are [esp_camera_return_all], [esp_camera_deinit] and the
    failed [esp_camera_init] and nothing else (no sensor adjustment),
    and the sensor is left marked uninitialized with the old values
    still in the cache fields. *)
Theorem camera_init_failed_switch hw xclk pf fs quality count w :
  inited (camera w) = true ->
  mk_camera_config xclk pf fs quality count <> cached_config (camera w) ->
  init_status hw <> ESP_OK ->
  exists w',
    camera_init hw xclk pf fs quality count w = Done (init_status hw) w'
    /\ calls w' =
       calls w ++ [esp_camera_return_all; esp_camera_deinit;
                   esp_camera_init (mk_camera_config xclk pf fs quality count)]
    /\ inited (camera w') = false
    /\ cached_config (camera w') = cached_config (camera w).
Proof.
  intros Hi Hneq Hko.
  rewrite camera_init_cases, already_inited_false, Hi by (right; congruence).
  rewrite camera_bring_up_failed by assumption.
  eexists. split; [reflexivity|]. split; [|now split].
  unfold torn_down, log_calls, with_camera. simpl calls.
  rewrite <- app_assoc. reflexivity.
Qed.

(** When [camera_init] returns [ESP_OK]. *)
Lemma camera_init_ok_iff hw xclk pf fs quality count w r w' :
  camera_init hw xclk pf fs quality count w = Done r w' ->
  (r = ESP_OK <->
   already_inited (camera w) xclk pf fs quality count = true
   \/ (init_status hw = ESP_OK /\ pf = PIXFORMAT_JPEG /\ support_jpeg hw = true)).
Proof.
  rewrite camera_init_cases.
  destruct (already_inited (camera w) xclk pf fs quality count) eqn:Ha.
  - intros E. injection E as <- _. split; auto.
  - assert (Hup : forall w0,
      camera_bring_up hw xclk pf fs quality count w0 = Done r w' ->
      (r = ESP_OK <->
       init_status hw = ESP_OK /\ pf = PIXFORMAT_JPEG /\ support_jpeg hw = true)).
    { intros w0 E.
      destruct (esp_err_eq_dec (init_status hw) ESP_OK) as [Hok|Hko].
      - destruct (pixformat_eq_dec pf PIXFORMAT_JPEG) as [Hpf|Hpf];
          [destruct (support_jpeg hw) eqn:Hj|].
        + subst pf. rewrite camera_bring_up_ok in E by assumption.
          injection E as <- _. tauto.
        + rewrite camera_bring_up_unsupported in E by auto.
          injection E as <- _. split; [discriminate|]. intros (_ & _ & H).
          discriminate H.
        + rewrite camera_bring_up_unsupported in E by auto.
          injection E as <- _. split; [discriminate|]. intros (_ & H & _).
          contradiction.
      - rewrite camera_bring_up_failed in E by assumption.
        injection E as <- _. split; [contradiction|]. intros (H & _).
        contradiction. }
    intros E. destruct (inited (camera w)); apply Hup in E; rewrite E;
      split; auto; intros [H|H]; [discriminate|exact H|discriminate|exact H].
Qed.

(** ** Further properties of the negotiation *)

(** X8. For a nonzero frame rate, [camera_start_cb] returns [ESP_OK]
    exactly when the format is MJPEG, the resolution is one that
    [map_resolution] knows, and either the sensor already runs with the
    configuration derived from it or the driver starts and the sensor
    supports JPEG. *)
Theorem camera_start_cb_ok_iff xclk hw format width height rate w r w' :
  rate <> 0 ->
  camera_start_cb xclk hw format width height rate w = Done r w' ->
  (r = ESP_OK <->
   format = UVC_FORMAT_MJPEG
   /\ exists fs quality,
        map_resolution width height = Some (fs, quality)
        /\ (already_inited (camera w) (to_uint32 xclk) PIXFORMAT_JPEG fs quality
              CAMERA_FB_COUNT = true
            \/ (init_status hw = ESP_OK /\ support_jpeg hw = true))).
Proof.
  intros Hrate E. rewrite camera_start_cb_cases in E by assumption. cbv zeta in E.
  destruct (uvc_format_eq_dec format UVC_FORMAT_MJPEG) as [Hf|Hf].
  - subst format.
    change (negb (uvc_format_eqb UVC_FORMAT_MJPEG UVC_FORMAT_MJPEG)) with false in E.
    cbv iota in E.
    destruct (map_resolution width height) as [[fs quality]|].
    + apply camera_init_ok_iff in E. rewrite E. split.
      * intros H. split; [reflexivity|]. exists fs, quality. split; [reflexivity|].
        destruct H as [H|(H1 & _ & H2)]; [left; exact H|right; now split].
      * intros (_ & fs' & quality' & Hm & H). injection Hm as <- <-.
        destruct H as [H|(H1 & H2)]; [left; exact H|right; now repeat split].
    + injection E as <- _. split; [discriminate|].
      intros (_ & fs & quality & Hm & _). discriminate Hm.
  - assert (Hb : uvc_format_eqb format UVC_FORMAT_MJPEG = false)
      by (apply not_true_is_false; now rewrite uvc_format_eqb_eq).
    rewrite Hb in E. simpl in E. injection E as <- _.
    split; [discriminate|]. intros (H & _). contradiction.
Qed.

Lemma camera_bring_up_ignores_params hw xclk pf fs quality count w p r w' :
  camera_bring_up hw xclk pf fs quality count w = Done r w' ->
  camera_bring_up hw xclk pf fs quality count (with_uvc_params p w) =
  Done r (with_uvc_params p w').
Proof.
  intros E.
  destruct (esp_err_eq_dec (init_status hw) ESP_OK) as [Hok|Hko].
  - destruct (pixformat_eq_dec pf PIXFORMAT_JPEG) as [Hpf|Hpf];
      [destruct (support_jpeg hw) eqn:Hj|].
    + subst pf. rewrite camera_bring_up_ok in * by assumption.
      injection E as <- <-. reflexivity.
    + rewrite camera_bring_up_unsupported in * by auto.
      injection E as <- <-. reflexivity.
    + rewrite camera_bring_up_unsupported in * by auto.
      injection E as <- <-. reflexivity.
  - rewrite camera_bring_up_failed in * by assumption.
    injection E as <- <-. reflexivity.
Qed.

Lemma camera_init_ignores_params hw xclk pf fs quality count w p r w' :
  camera_init hw xclk pf fs quality count w = Done r w' ->
  camera_init hw xclk pf fs quality count (with_uvc_params p w) =
  Done r (with_uvc_params p w').
Proof.
  rewrite !camera_init_cases.
  change (camera (with_uvc_params p w)) with (camera w).
  destruct (already_inited (camera w) xclk pf fs quality count).
  - intros E. injection E as <- <-. reflexivity.
  - destruct (inited (camera w)); intros E.
    + apply (camera_bring_up_ignores_params _ _ _ _ _ _ _ p) in E. exact E.
    + apply camera_bring_up_ignores_params. exact E.
Qed.

(** X9. The frame rate is stored and nothing else: two requests that
    differ only in their (nonzero) frame rate get the same return value
    and lead to the same driver calls and the same sensor state; the
    resulting states differ in [s_uvc_params] alone.  No rate is ever
    compared with the capability table or passed to the sensor. *)
Theorem camera_start_cb_rate_only_stored xclk hw format width height rate1 rate2 w :
  rate1 <> 0 ->
  rate2 <> 0 ->
  exists r w1,
    camera_start_cb xclk hw format width height rate1 w = Done r w1
    /\ camera_start_cb xclk hw format width height rate2 w =
       Done r (with_uvc_params (requested_params format width height rate2) w1).
Proof.
  intros H1 H2. rewrite !camera_start_cb_cases by assumption. cbv zeta.
  destruct (negb (uvc_format_eqb format UVC_FORMAT_MJPEG)).
  - eexists. eexists. split; reflexivity.
  - destruct (map_resolution width height) as [[fs quality]|].
    + destruct (camera_init_total hw (to_uint32 xclk) PIXFORMAT_JPEG fs quality
                  CAMERA_FB_COUNT
                  (with_uvc_params (requested_params format width height rate1) w))
        as (r & w1 & E & _).
      exists r, w1. split; [exact E|].
      apply (camera_init_ignores_params _ _ _ _ _ _ _
               (requested_params format width height rate2)) in E.
      exact E.
    + eexists. eexists. split; reflexivity.
Qed.

(** X13. Negotiation never touches the frame handle: after
    [camera_start_cb], [s_fb] is as before, also when the running
    sensor was torn down and all its buffers were returned, so
    [s_fb.cam_fb_p] can still point to a buffer of the old
    configuration. *)
Theorem camera_start_cb_keeps_s_fb xclk hw format width height rate w r w' :
  camera_start_cb xclk hw format width height rate w = Done r w' ->
  s_fb w' = s_fb w.
Proof.
  intros E.
  assert (Hrate : rate <> 0).
  { intros ->. rewrite camera_start_cb_zero_rate in E. discriminate E. }
  rewrite camera_start_cb_cases in E by assumption. cbv zeta in E.
  destruct (negb (uvc_format_eqb format UVC_FORMAT_MJPEG)).
  - injection E as _ <-. reflexivity.
  - destruct (map_resolution width height) as [[fs quality]|].
    + destruct (camera_init_total hw (to_uint32 xclk) PIXFORMAT_JPEG fs quality
                  CAMERA_FB_COUNT
                  (with_uvc_params (requested_params format width height rate) w))
        as (r0 & w0 & E0 & Hfb & _).
      rewrite E0 in E. injection E as _ <-. exact Hfb.
    + injection E as _ <-. reflexivity.
Qed.

(** X11. [camera_start_cb] keeps the cache of [camera_init] within what
    it can request itself: if the sensor is marked initialized, the
    cached clock is the configured one, the pixel format is JPEG, the
    buffer count is 2, and the cached frame size and quality are a pair
    of [map_resolution]. *)
Theorem camera_start_cb_keeps_cache xclk hw format width height rate w r w' :
  cache_from_start_cb xclk (camera w) ->
  camera_start_cb xclk hw format width height rate w = Done r w' ->
  cache_from_start_cb xclk (camera w').
Proof.
  intros Hinv E.
  assert (Hrate : rate <> 0).
  { intros ->. rewrite camera_start_cb_zero_rate in E. discriminate E. }
  rewrite camera_start_cb_cases in E by assumption. cbv zeta in E.
  destruct (negb (uvc_format_eqb format UVC_FORMAT_MJPEG)).
  { injection E as _ <-. exact Hinv. }
  destruct (map_resolution width height) as [[fs quality]|] eqn:Hmap.
  2:{ injection E as _ <-. exact Hinv. }
  rewrite camera_init_cases in E.
  change (camera (with_uvc_params (requested_params format width height rate) w))
    with (camera w) in E.
  destruct (already_inited (camera w) (to_uint32 xclk) PIXFORMAT_JPEG fs quality
              CAMERA_FB_COUNT).
  { injection E as _ <-. exact Hinv. }
  assert (Hup : forall w0, inited (camera w0) = false ->
    camera_bring_up hw (to_uint32 xclk) PIXFORMAT_JPEG fs quality CAMERA_FB_COUNT w0
      = Done r w' ->
    cache_from_start_cb xclk (camera w')).
  { intros w0 H0 E0.
    destruct (camera_bring_up_spec hw (to_uint32 xclk) PIXFORMAT_JPEG fs quality
                CAMERA_FB_COUNT w0)
      as (r1 & w1 & rest & E1 & _ & _ & _ & _ & Hok & Hko).
    rewrite E1 in E0. injection E0 as -> ->.
    destruct (esp_err_eq_dec r ESP_OK) as [Hr|Hr].
    - destruct (Hok Hr) as [_ Hc]. intros _.
      unfold cached_config in Hc. injection Hc as Hx Hp Hf Hq Hn.
      repeat split; try assumption.
      exists width, height. rewrite Hf, Hq. exact Hmap.
    - intros Hi. rewrite (Hko Hr), H0 in Hi. discriminate Hi. }
  destruct (inited (camera w)) eqn:Hi.
  - apply (Hup (torn_down (with_uvc_params
                             (requested_params format width height rate) w)));
      [reflexivity|exact E].
  - apply (Hup (with_uvc_params (requested_params format width height rate) w));
      [exact Hi|exact E].
Qed.

Lemma map_resolution_some width height fs quality :
  map_resolution width height = Some (fs, quality) ->
  (width = 320 /\ height = 240 /\ fs = FRAMESIZE_QVGA /\ quality = 10)
  \/ (width = 480 /\ height = 320 /\ fs = FRAMESIZE_HVGA /\ quality = 10)
  \/ (width = 640 /\ height = 480 /\ fs = FRAMESIZE_VGA /\ quality = 12)
  \/ (width = 800 /\ height = 600 /\ fs = FRAMESIZE_SVGA /\ quality = 14)
  \/ (width = 1280 /\ height = 720 /\ fs = FRAMESIZE_HD /\ quality = 16)
  \/ (width = 1920 /\ height = 1080 /\ fs = FRAMESIZE_FHD /\ quality = 16).
Proof.
  unfold map_resolution.
  repeat match goal with
  | |- context [(?a =? ?b) && (?c =? ?d)] =>
      destruct (Z.eqb_spec a b); destruct (Z.eqb_spec c d); simpl
  end;
  intros E; try discriminate E; injection E as <- <-; tauto.
Qed.

(** X12. The resolution mapping of [camera_start_cb] trades quality for
    size: the JPEG quality number lies between 10 and 16 and never
    decreases when the pixel count grows, and two resolutions mapped to
    the same sensor frame size are the same resolution. *)
Theorem map_resolution_quality width1 height1 fs1 quality1
  width2 height2 fs2 quality2 :
  map_resolution width1 height1 = Some (fs1, quality1) ->
  map_resolution width2 height2 = Some (fs2, quality2) ->
  10 <= quality1 <= 16
  /\ (width1 * height1 <= width2 * height2 -> quality1 <= quality2)
  /\ (fs1 = fs2 -> width1 = width2 /\ height1 = height2).
Proof.
  intros H1 H2.
  apply map_resolution_some in H1. apply map_resolution_some in H2.
  destruct H1 as [H1|[H1|[H1|[H1|[H1|H1]]]]]; destruct H1 as (-> & -> & -> & ->);
    destruct H2 as [H2|[H2|[H2|[H2|[H2|H2]]]]]; destruct H2 as (-> & -> & -> & ->);
    (split; [lia|]); (split; [lia|]); intros E; (discriminate E || (split; reflexivity)).
Qed.

(** A request for MJPEG at a mapped resolution is the call of
    [camera_init] on the state that holds the request. *)
Lemma camera_start_cb_mjpeg xclk hw width height rate fs quality w :
  rate <> 0 ->
  map_resolution width height = Some (fs, quality) ->
  camera_start_cb xclk hw UVC_FORMAT_MJPEG width height rate w =
  camera_init hw (to_uint32 xclk) PIXFORMAT_JPEG fs quality CAMERA_FB_COUNT
    (with_uvc_params (requested_params UVC_FORMAT_MJPEG width height rate) w).
Proof.
  intros Hrate Hmap. rewrite camera_start_cb_cases by assumption. cbv zeta.
  change (negb (uvc_format_eqb UVC_FORMAT_MJPEG UVC_FORMAT_MJPEG)) with false.
  cbv iota. rewrite Hmap. reflexivity.
Qed.

(** An [ESP_OK] from [camera_start_cb] comes from [camera_init]. *)
Lemma camera_start_cb_ok_inv xclk hw format width height rate w w' :
  camera_start_cb xclk hw format width height rate w = Done ESP_OK w' ->
  rate <> 0
  /\ format = UVC_FORMAT_MJPEG
  /\ exists fs quality, map_resolution width height = Some (fs, quality).
Proof.
  intros E.
  assert (Hrate : rate <> 0).
  { intros ->. rewrite camera_start_cb_zero_rate in E. discriminate E. }
  split; [exact Hrate|].
  rewrite camera_start_cb_cases in E by assumption. cbv zeta in E.
  destruct (uvc_format_eq_dec format UVC_FORMAT_MJPEG) as [Hf|Hf].
  - split; [exact Hf|].
    destruct (map_resolution width height) as [[fs quality]|].
    + now exists fs, quality.
    + destruct (negb (uvc_format_eqb format UVC_FORMAT_MJPEG)); discriminate E.
  - assert (Hb : uvc_format_eqb format UVC_FORMAT_MJPEG = false)
      by (apply not_true_is_false; now rewrite uvc_format_eqb_eq).
    rewrite Hb in E. discriminate E.
Qed.

(** After [ESP_OK] from [camera_init] the cache holds the request. *)
Lemma camera_init_ok_state hw xclk pf fs quality count w w' :
  camera_init hw xclk pf fs quality count w = Done ESP_OK w' ->
  inited (camera w') = true
  /\ cached_config (camera w') = mk_camera_config xclk pf fs quality count.
Proof.
  rewrite camera_init_cases.
  destruct (already_inited (camera w) xclk pf fs quality count) eqn:Ha.
  - intros E. injection E as <-. now apply already_inited_iff.
  - assert (Hup : forall w0,
      camera_bring_up hw xclk pf fs quality count w0 = Done ESP_OK w' ->
      inited (camera w') = true
      /\ cached_config (camera w') = mk_camera_config xclk pf fs quality count).
    { intros w0 E0.
      destruct (camera_bring_up_spec hw xclk pf fs quality count w0)
        as (r & w1 & rest & E1 & _ & _ & _ & _ & Hok & _).
      rewrite E1 in E0. injection E0 as -> ->. now apply Hok. }
    destruct (inited (camera w)); apply Hup.
Qed.

(** X10. Every row of the capability table can be negotiated: with a
    driver that starts and a sensor that supports JPEG, requesting MJPEG
    with the width, height and rate of a row returns [ESP_OK] from any
    state, leaves the sensor initialized, and stores the very interval
    the row advertises. *)
Theorem table_rows_negotiable xclk hw row w :
  In row mjpeg_frames ->
  init_status hw = ESP_OK ->
  support_jpeg hw = true ->
  exists w',
    camera_start_cb xclk hw UVC_FORMAT_MJPEG (width row) (height row) (rate row) w =
    Done ESP_OK w'
    /\ p_frame_interval (s_uvc_params w') = interval row
    /\ inited (camera w') = true.
Proof.
  intros Hrow Hok Hj.
  assert (Hfacts : rate row <> 0
                   /\ to_uint32 (Z.quot 10000000 (rate row)) = interval row
                   /\ exists fs quality,
                        map_resolution (width row) (height row) = Some (fs, quality)).
  { simpl in Hrow.
    repeat (destruct Hrow as [<-|Hrow];
            [split; [discriminate|]; split; [reflexivity|];
             eexists; eexists; reflexivity|]).
    contradiction. }
  destruct Hfacts as (Hrate & Hint & fs & quality & Hmap).
  destruct (camera_start_cb_params xclk hw UVC_FORMAT_MJPEG (width row) (height row)
              (rate row) w Hrate) as (r & w' & E & Hp).
  assert (Hr : r = ESP_OK).
  { rewrite (camera_start_cb_mjpeg _ _ _ _ _ _ _ _ Hrate Hmap) in E.
    apply (camera_init_ok_iff _ _ _ _ _ _ _ _ _ E). right. now repeat split. }
  subst r. exists w'. split; [exact E|]. split.
  - rewrite Hp. exact Hint.
  - rewrite (camera_start_cb_mjpeg _ _ _ _ _ _ _ _ Hrate Hmap) in E.
    now apply camera_init_ok_state in E.
Qed.

(** X14. The interval outside the positive range of rates.  The
    quotient is an [int] stored in a [uint32_t]: a rate above 10,000,000
    or below -10,000,000 stores 0, and a negative rate down to
    -10,000,000 stores the quotient wrapped around, 2^32 minus
    10,000,000 / |rate|. *)
Theorem frame_interval_out_of_range xclk hw format width height rate w r w' :
  camera_start_cb xclk hw format width height rate w = Done r w' ->
  (10000000 < rate \/ rate < -10000000 -> p_frame_interval (s_uvc_params w') = 0)
  /\ (-10000000 <= rate < 0 ->
      p_frame_interval (s_uvc_params w') = 2 ^ 32 - 10000000 / (- rate)).
Proof.
  intros E.
  assert (Hrate : rate <> 0).
  { intros ->. rewrite camera_start_cb_zero_rate in E. discriminate E. }
  destruct (camera_start_cb_params xclk hw format width height rate w Hrate)
    as (r0 & w0 & E0 & Hp).
  rewrite E0 in E. injection E as -> ->. rewrite Hp. simpl p_frame_interval.
  split.
  - intros [Hbig|Hneg].
    + rewrite Z.quot_small by lia. reflexivity.
    + replace rate with (- (- rate)) by lia.
      rewrite Z.quot_opp_r by lia. rewrite Z.quot_small by lia. reflexivity.
  - intros [Hlo Hhi].
    replace (Z.quot 10000000 rate) with (- (10000000 / (- rate))).
    2:{ replace rate with (- (- rate)) at 2 by lia.
        rewrite Z.quot_opp_r by lia. rewrite Z.quot_div_nonneg by lia. reflexivity. }
    assert (Hk : 1 <= 10000000 / (- rate) <= 10000000).
    { split.
      - apply Z.div_le_lower_bound; lia.
      - apply Z.div_le_upper_bound; nia. }
    unfold to_uint32. symmetry. apply Z.mod_unique with (q := -1); lia.
Qed.

(** ** The further properties at concrete inputs *)

Lemma camera_fb_get_cb_no_frame_witness :
  exists w',
    camera_fb_get_cb true ov2640_ok boot_world = Done NULL w'
    /\ calls w' = calls boot_world ++ [esp_camera_fb_get].
Proof.
  destruct (camera_fb_get_cb_no_frame true ov2640_ok boot_world eq_refl)
    as (w' & E & Hc & _).
  exists w'. split; [exact E|exact Hc].
Defined.

Lemma camera_fb_get_cb_frame_witness :
  fb_len small_frame <= UVC_MAX_FRAMESIZE_SIZE false
  /\ exists w',
       camera_fb_get_cb false (delivers small_frame) boot_world =
       Done addr_s_fb_uvc_fb w'
       /\ cam_fb_p (s_fb w') = Some small_frame.
Proof.
  assert (H : fb_len small_frame <= UVC_MAX_FRAMESIZE_SIZE false)
    by (unfold UVC_MAX_FRAMESIZE_SIZE; simpl; lia).
  split; [exact H|].
  destruct (camera_fb_get_cb_frame false (delivers small_frame) small_frame boot_world
              eq_refl H) as (w' & E & _ & Hp & _).
  exists w'. split; [exact E|exact Hp].
Defined.

Lemma camera_fb_return_cb_after_null_witness :
  exists w1 w2,
    camera_fb_get_cb true (delivers large_frame) boot_world = Done NULL w1
    /\ camera_fb_return_cb addr_s_fb_uvc_fb w1 = Done tt w2
    /\ calls w2 =
       [esp_camera_fb_get; esp_camera_fb_return (Some large_frame);
        esp_camera_fb_return (Some large_frame)].
Proof.
  eexists.
  destruct (camera_fb_return_cb_after_null true (delivers large_frame) boot_world _
              eq_refl) as (w2 & E & _ & Htwice).
  exists w2. split; [reflexivity|]. split; [exact E|].
  apply (Htwice large_frame eq_refl).
Defined.

Lemma camera_init_failed_switch_witness :
  exists w',
    camera_init (mk_sensor_lib (ESP_ERR_code 261) OV2640_PID true None)
      20000000 PIXFORMAT_JPEG FRAMESIZE_HD 16 2 vga_world =
    Done (ESP_ERR_code 261) w'
    /\ inited (camera w') = false.
Proof.
  destruct (camera_init_failed_switch
              (mk_sensor_lib (ESP_ERR_code 261) OV2640_PID true None)
              20000000 PIXFORMAT_JPEG FRAMESIZE_HD 16 2 vga_world
              eq_refl ltac:(simpl; discriminate) ltac:(simpl; discriminate))
    as (w' & E & _ & Hi & _).
  exists w'. split; [exact E|exact Hi].
Defined.

Lemma camera_start_cb_ok_iff_witness :
  UVC_FORMAT_MJPEG = UVC_FORMAT_MJPEG
  /\ exists fs quality,
       map_resolution 640 480 = Some (fs, quality)
       /\ (already_inited (camera boot_world) (to_uint32 20000000) PIXFORMAT_JPEG fs
             quality CAMERA_FB_COUNT = true
           \/ (init_status ov2640_ok = ESP_OK /\ support_jpeg ov2640_ok = true)).
Proof.
  refine (proj1 (camera_start_cb_ok_iff 20000000 ov2640_ok UVC_FORMAT_MJPEG 640 480 30
                   boot_world ESP_OK _ _ _) eq_refl).
  - lia.
  - reflexivity.
Defined.

Lemma camera_start_cb_rate_only_stored_witness :
  exists r w1,
    camera_start_cb 20000000 ov2640_ok UVC_FORMAT_MJPEG 640 480 30 boot_world =
    Done r w1
    /\ camera_start_cb 20000000 ov2640_ok UVC_FORMAT_MJPEG 640 480 60 boot_world =
       Done r (with_uvc_params (requested_params UVC_FORMAT_MJPEG 640 480 60) w1).
Proof.
  apply (camera_start_cb_rate_only_stored 20000000 ov2640_ok UVC_FORMAT_MJPEG 640 480
           30 60 boot_world); lia.
Defined.

Lemma camera_start_cb_keeps_s_fb_witness :
  exists r w',
    camera_start_cb 20000000 ov2640_ok UVC_FORMAT_MJPEG 1280 720 15 vga_world =
    Done r w'
    /\ s_fb w' = s_fb vga_world.
Proof.
  eexists. eexists. split; [reflexivity|].
  apply (camera_start_cb_keeps_s_fb 20000000 ov2640_ok UVC_FORMAT_MJPEG 1280 720 15
           vga_world _ _ eq_refl).
Defined.

Lemma camera_start_cb_keeps_cache_witness :
  cache_from_start_cb 20000000 (camera boot_world)
  /\ exists r w',
       camera_start_cb 20000000 ov2640_ok UVC_FORMAT_MJPEG 640 480 30 boot_world =
       Done r w'
       /\ cache_from_start_cb 20000000 (camera w').
Proof.
  assert (H : cache_from_start_cb 20000000 (camera boot_world))
    by (intros Hi; discriminate Hi).
  split; [exact H|].
  eexists. eexists. split; [reflexivity|].
  apply (camera_start_cb_keeps_cache 20000000 ov2640_ok UVC_FORMAT_MJPEG 640 480 30
           boot_world _ _ H eq_refl).
Defined.

Lemma map_resolution_quality_witness :
  10 <= 12 <= 16
  /\ (640 * 480 <= 1280 * 720 -> 12 <= 16)
  /\ (FRAMESIZE_VGA = FRAMESIZE_HD -> 640 = 1280 /\ 480 = 720).
Proof.
  apply (map_resolution_quality 640 480 FRAMESIZE_VGA 12 1280 720 FRAMESIZE_HD 16);
    reflexivity.
Defined.

Lemma table_rows_negotiable_witness :
  exists w',
    camera_start_cb 20000000 ov2640_ok UVC_FORMAT_MJPEG 1280 720 15 vga_world =
    Done ESP_OK w'
    /\ p_frame_interval (s_uvc_params w') = 666666
    /\ inited (camera w') = true.
Proof.
  apply (table_rows_negotiable 20000000 ov2640_ok
           (mk_uvc_frame_info 1280 720 15 666666) vga_world);
    [simpl; tauto | reflexivity | reflexivity].
Defined.

Lemma frame_interval_out_of_range_witness :
  exists r w',
    camera_start_cb 20000000 ov2640_ok UVC_FORMAT_MJPEG 640 480 (-1) boot_world =
    Done r w'
    /\ p_frame_interval (s_uvc_params w') = 4284967296.
Proof.
  eexists. eexists. split; [reflexivity|].
  apply (proj2 (frame_interval_out_of_range 20000000 ov2640_ok UVC_FORMAT_MJPEG 640 480
                  (-1) boot_world _ _ eq_refl)).
  lia.
Defined.

(** X15. Repeating a negotiation that succeeded costs nothing: after
    [camera_start_cb] has returned [ESP_OK], a second request with the
    same format and resolution, at any nonzero rate, returns [ESP_OK]
    without a single driver call, whatever the driver would have
    answered; only [s_uvc_params] is rewritten. *)
Theorem camera_start_cb_repeat xclk hw format width height rate w w1 hw2 rate2 :
  camera_start_cb xclk hw format width height rate w = Done ESP_OK w1 ->
  rate2 <> 0 ->
  camera_start_cb xclk hw2 format width height rate2 w1 =
  Done ESP_OK (with_uvc_params (requested_params format width height rate2) w1).
Proof.
  intros E Hrate2.
  destruct (camera_start_cb_ok_inv _ _ _ _ _ _ _ _ E)
    as (Hrate & -> & fs & quality & Hmap).
  rewrite (camera_start_cb_mjpeg _ _ _ _ _ _ _ _ Hrate Hmap) in E.
  apply camera_init_ok_state in E.
  rewrite (camera_start_cb_mjpeg _ _ _ _ _ _ _ _ Hrate2 Hmap).
  rewrite camera_init_cases.
  change (camera (with_uvc_params
            (requested_params UVC_FORMAT_MJPEG width height rate2) w1))
    with (camera w1).
  apply already_inited_iff in E. rewrite E. reflexivity.
Qed.

Lemma camera_start_cb_repeat_witness :
  exists w1,
    camera_start_cb 20000000 ov2640_ok UVC_FORMAT_MJPEG 640 480 30 boot_world =
    Done ESP_OK w1
    /\ camera_start_cb 20000000 no_jpeg_sensor UVC_FORMAT_MJPEG 640 480 15 w1 =
       Done ESP_OK
         (with_uvc_params (requested_params UVC_FORMAT_MJPEG 640 480 15) w1).
Proof.
  eexists. split; [reflexivity|].
  apply (camera_start_cb_repeat 20000000 ov2640_ok UVC_FORMAT_MJPEG 640 480 30
           boot_world _ no_jpeg_sensor 15 eq_refl).
  lia.
Defined.
